(** * Skill scaffolding scripts of openclaw-coolify, shallow embedding

    Sources: skills/learning/scripts/create_skill.py, implement_action.py,
    search_skills.py, install_skill.py.

    Python [str] values are modelled as Stdlib [string]s of ASCII
    characters.  Case mapping ([str.title]) is modelled for ASCII letters;
    whitespace ([str.strip]) is the ASCII part of Python's whitespace set
    (tab, LF, VT, FF, CR, the separators 0x1c-0x1f and space).

    The filesystem is a finite partial map from paths to nodes; a path is a
    list of components and [os.path.join root name] appends [name] as one
    component (skill and action names are single path components).  Every
    filesystem primitive consults a fault oracle, so that I/O errors can be
    injected at each call the scripts make.  Files are opened in text
    mode: reading translates newlines as Python's universal-newline mode
    does; writing on POSIX leaves ["\n"] as it is. *)

From Stdlib Require Import String Ascii List Bool ZArith Lia.
Import ListNotations.
Open Scope string_scope.

(* ------------------------------------------------------------------ *)
(** ** Python string primitives used by the scripts *)

Module PyStr.

Definition chr (n : nat) : ascii := ascii_of_nat n.

Definition nl : string := String (chr 10) EmptyString.
Definition cr : string := String (chr 13) EmptyString.
Definition dq : string := String (chr 34) EmptyString.

(** [str.isspace] restricted to ASCII. *)
Definition is_space (c : ascii) : bool :=
  let n := nat_of_ascii c in
  (Nat.leb 9 n && Nat.leb n 13) || (Nat.leb 28 n && Nat.leb n 32).

Definition is_upper (c : ascii) : bool :=
  let n := nat_of_ascii c in Nat.leb 65 n && Nat.leb n 90.

Definition is_lower (c : ascii) : bool :=
  let n := nat_of_ascii c in Nat.leb 97 n && Nat.leb n 122.

(** ASCII letters are exactly the cased characters. *)
Definition is_cased (c : ascii) : bool := is_upper c || is_lower c.

Definition to_upper (c : ascii) : ascii :=
  if is_lower c then chr (nat_of_ascii c - 32)%nat else c.

Definition to_lower (c : ascii) : ascii :=
  if is_upper c then chr (nat_of_ascii c + 32)%nat else c.

(** [str.lstrip()] *)
Fixpoint lstrip (s : string) : string :=
  match s with
  | EmptyString => EmptyString
  | String c r => if is_space c then lstrip r else s
  end.

(** [str.rstrip()] *)
Fixpoint rstrip (s : string) : string :=
  match s with
  | EmptyString => EmptyString
  | String c r =>
      match rstrip r with
      | EmptyString => if is_space c then EmptyString else String c EmptyString
      | r' => String c r'
      end
  end.

(** [str.strip()] *)
Definition strip (s : string) : string := rstrip (lstrip s).

(** [s.startswith(p)] *)
Fixpoint starts_with (p s : string) : bool :=
  match p, s with
  | EmptyString, _ => true
  | String c p', String d s' => Ascii.eqb c d && starts_with p' s'
  | String _ _, EmptyString => false
  end.

(** [needle in hay] *)
Fixpoint contains (needle hay : string) : bool :=
  match hay with
  | EmptyString => starts_with needle hay
  | String _ r => starts_with needle hay || contains needle r
  end.

(** [s.replace(a, b)] for single-character [a] and [b]. *)
Fixpoint replace_char (a b : ascii) (s : string) : string :=
  match s with
  | EmptyString => EmptyString
  | String c r => String (if Ascii.eqb c a then b else c) (replace_char a b r)
  end.

(** [str.title()], following CPython's [do_title]: a character is
    title-cased when the previous character is not cased, lower-cased
    otherwise. *)
Fixpoint title_from (previous_is_cased : bool) (s : string) : string :=
  match s with
  | EmptyString => EmptyString
  | String c r =>
      String (if previous_is_cased then to_lower c else to_upper c)
             (title_from (is_cased c) r)
  end.

Definition title (s : string) : string := title_from false s.

End PyStr.

(* ------------------------------------------------------------------ *)
(** ** The process world: filesystem, I/O faults, console, subprocesses *)

Module World.

Definition path := list string.

(** [os.path.join(p, seg)] for a single component [seg]. *)
Definition join (p : path) (seg : string) : path := (p ++ [seg])%list.

(** Rendering of a path in messages. *)
Definition path_str (p : path) : string := String.concat "/" ("" :: p).

Fixpoint path_eqb (p q : path) : bool :=
  match p, q with
  | [], [] => true
  | a :: p', b :: q' => String.eqb a b && path_eqb p' q'
  | _, _ => false
  end.

Inductive node :=
| Dir
| File (contents : string) (mode : Z).

(** Mode of a file created by [open(p, "w")] or [open(p, "a")]: 0o666
    with the bits of the process umask cleared. *)
Definition created_file_mode (umask : Z) : Z := Z.land 438 (Z.lnot umask).

(** Filesystem calls that may fail with an [OSError]. *)
Inductive fop :=
| OpMkdir (p : path)
| OpOpenWrite (p : path)
| OpChmod (p : path)
| OpOpenRead (p : path)
| OpOpenAppend (p : path).

(** Outcome of [subprocess.run(args, capture_output=True, text=True)]. *)
Inductive proc_result :=
| ProcNotFound
| ProcExited (returncode : Z) (stdout stderr : string).

(** What the process observes but does not change: which filesystem calls
    fail, its umask, and what the external programs do.

    [fault o] makes the call [o] fail with an [OSError].  For the
    statements [with open(p, mode) as f: f.write(s)] ([OpOpenWrite p] and
    [OpOpenAppend p]) [written o] tells where: [None] when [open] itself
    fails, [Some k] when [open] succeeds (creating the file, or truncating
    it in mode "w") and then [f.write] or the flush at [close] fails after
    the first [k] characters of [s] reached the file. *)
Record env := mkEnv {
  fault : fop -> bool;
  written : fop -> option nat;
  umask : Z;
  run_proc : list string -> proc_result
}.

(** What the process changes: the filesystem and its console output. *)
Record world := mkWorld {
  fs : path -> option node;
  out : list string  (* arguments of the successive print calls *)
}.

Definition set_fs (w : world) (f : path -> option node) : world :=
  mkWorld f (out w).

Definition upd (f : path -> option node) (p : path) (n : node)
  : path -> option node :=
  fun q => if path_eqb q p then Some n else f q.

(** Python exceptions reaching the scripts: [OSError] (an [Exception]) and
    [SystemExit], which [except Exception] does not catch. *)
Inductive exn :=
| OSError (msg : string)
| FileNotFoundError
| CalledProcessError (args : list string) (returncode : Z) (stderr : string)
| SystemExit (code : Z).

Inductive result (A : Type) :=
| Ok (a : A)
| Err (e : exn).
Arguments Ok {A} a.
Arguments Err {A} e.

Definition M (A : Type) := env -> world -> result A * world.

Definition ret {A} (a : A) : M A := fun _ w => (Ok a, w).

Definition bind {A B} (m : M A) (k : A -> M B) : M B :=
  fun en w => match m en w with
              | (Ok a, w') => k a en w'
              | (Err e, w') => (Err e, w')
              end.

Notation "x <- m ;; k" := (bind m (fun x => k))
  (at level 61, m at next level, right associativity).
Notation "m ;;; k" := (bind m (fun _ => k))
  (at level 61, right associativity).

Definition raise {A} (e : exn) : M A := fun _ w => (Err e, w).

Definition sys_exit {A} (code : Z) : M A := raise (SystemExit code).

(** [try: m except Exception as e: h(e)] *)
Definition try_except {A} (m : M A) (h : exn -> M A) : M A :=
  fun en w => match m en w with
              | (Err (SystemExit c), w') => (Err (SystemExit c), w')
              | (Err e, w') => h e en w'
              | r => r
              end.

Definition print (s : string) : M unit :=
  fun _ w => (Ok tt, mkWorld (fs w) (out w ++ [s])%list).

Definition get_fs : M (path -> option node) := fun _ w => (Ok (fs w), w).

Definition put_fs (f : path -> option node) : M unit :=
  fun _ w => (Ok tt, set_fs w f).

Definition faulty (o : fop) : M bool := fun en w => (Ok (fault en o), w).

Definition get_umask : M Z := fun en w => (Ok (umask en), w).

(** How a [with open(p, mode) as f: f.write(s)] statement goes. *)
Inductive write_outcome :=
| WriteOk
| OpenFails
| WriteFailsAfter (k : nat).

Definition write_outcome_of (o : fop) : M write_outcome :=
  fun en w =>
    (Ok (if fault en o then
           match written en o with
           | None => OpenFails
           | Some k => WriteFailsAfter k
           end
         else WriteOk), w).

(** The data step on the opened file [p]: it ends up holding [pre ++ s]
    with mode [m], or [pre] and the first [k] characters of [s] when the
    write fails. *)
Definition put_written (wo : write_outcome) (f : path -> option node) (p : path)
  (pre s : string) (m : Z) : M unit :=
  match wo with
  | WriteFailsAfter k =>
      put_fs (upd f p (File (pre ++ substring 0 k s) m)) ;;;
      raise (OSError "write failed")
  | _ => put_fs (upd f p (File (pre ++ s) m))
  end.

(** [os.path.exists(p)] *)
Definition exists_path (p : path) : M bool :=
  f <- get_fs ;; ret (match f p with Some _ => true | None => false end).

Definition parent (p : path) : path := removelast p.

Definition parent_is_dir (f : path -> option node) (p : path) : bool :=
  match f (parent p) with Some Dir => true | _ => false end.

(** [os.mkdir(p)] *)
Definition mkdir (p : path) : M unit :=
  e <- faulty (OpMkdir p) ;;
  if e then raise (OSError "mkdir failed") else
  f <- get_fs ;;
  match f p with
  | Some _ => raise (OSError "[Errno 17] File exists")
  | None =>
      if parent_is_dir f p then put_fs (upd f p Dir)
      else raise (OSError "[Errno 2] No such file or directory")
  end.

(** [os.makedirs(p)], on the reversed path so that the recursion on the
    parent ([head]) is structural:
      head, tail = path.split(name)
      if head and tail and not path.exists(head): makedirs(head)
      mkdir(name) *)
Fixpoint makedirs_rev (rp : list string) : M unit :=
  match rp with
  | [] => raise (OSError "[Errno 17] File exists")
  | _ :: rhead =>
      (match rhead with
       | [] => ret tt
       | _ :: _ =>
           e <- exists_path (rev rhead) ;;
           if e then ret tt else makedirs_rev rhead
       end) ;;;
      mkdir (rev rp)
  end.

Definition makedirs (p : path) : M unit := makedirs_rev (rev p).

(** [with open(p, "w") as f: f.write(s)] *)
Definition write_file (p : path) (s : string) : M unit :=
  wo <- write_outcome_of (OpOpenWrite p) ;;
  match wo with
  | OpenFails => raise (OSError "open for writing failed")
  | _ =>
      f <- get_fs ;;
      match f p with
      | Some Dir => raise (OSError "[Errno 21] Is a directory")
      | Some (File _ m) => put_written wo f p "" s m
      | None =>
          if parent_is_dir f p then
            um <- get_umask ;; put_written wo f p "" s (created_file_mode um)
          else raise (OSError "[Errno 2] No such file or directory")
      end
  end.

(** [os.chmod(p, m)] *)
Definition chmod (p : path) (m : Z) : M unit :=
  e <- faulty (OpChmod p) ;;
  if e then raise (OSError "chmod failed") else
  f <- get_fs ;;
  match f p with
  | None => raise (OSError "[Errno 2] No such file or directory")
  | Some Dir => ret tt
  | Some (File c _) => put_fs (upd f p (File c m))
  end.

(** Universal newlines, as a text file opened in mode "r" decodes its
    contents: ["\r\n"] and a lone ["\r"] both become ["\n"].  [after_cr]
    records that the previous character was a ["\r"] (already turned into
    ["\n"]), so that a ["\n"] right after it is dropped. *)
Fixpoint decode_newlines_from (after_cr : bool) (s : string) : string :=
  match s with
  | EmptyString => EmptyString
  | String c r =>
      if Ascii.eqb c (PyStr.chr 13) then String (PyStr.chr 10) (decode_newlines_from true r)
      else if after_cr && Ascii.eqb c (PyStr.chr 10) then decode_newlines_from false r
      else String c (decode_newlines_from false r)
  end.

Definition decode_newlines (s : string) : string := decode_newlines_from false s.

(** [with open(p, "r") as f: content = f.read()] *)
Definition read_file (p : path) : M string :=
  e <- faulty (OpOpenRead p) ;;
  if e then raise (OSError "open for reading failed") else
  f <- get_fs ;;
  match f p with
  | Some (File c _) => ret (decode_newlines c)
  | Some Dir => raise (OSError "[Errno 21] Is a directory")
  | None => raise (OSError "[Errno 2] No such file or directory")
  end.

(** [with open(p, "a") as f: f.write(s)] *)
Definition append_file (p : path) (s : string) : M unit :=
  wo <- write_outcome_of (OpOpenAppend p) ;;
  match wo with
  | OpenFails => raise (OSError "open for appending failed")
  | _ =>
      f <- get_fs ;;
      match f p with
      | Some Dir => raise (OSError "[Errno 21] Is a directory")
      | Some (File c m) => put_written wo f p c s m
      | None =>
          if parent_is_dir f p then
            um <- get_umask ;; put_written wo f p "" s (created_file_mode um)
          else raise (OSError "[Errno 2] No such file or directory")
      end
  end.

(** [subprocess.run(args, capture_output=True, text=True, check=True)]:
    returns the captured standard output, raises [FileNotFoundError] when
    the program is missing and [CalledProcessError] on a non-zero exit
    status.  What the child process itself does to the filesystem is not
    modelled: [clawhub search] only queries the registry, and the results
    on [install_skill] speak of its exit status and console output only. *)
Definition run_checked (args : list string) : M string :=
  fun en w => match run_proc en args with
           | ProcNotFound => (Err FileNotFoundError, w)
           | ProcExited rc so se =>
               if Z.eqb rc 0 then (Ok so, w)
               else (Err (CalledProcessError args rc se), w)
           end.

(** Running a script as [python3 script.py ...]: the exit status and the
    final world.  An exception other than [SystemExit] escapes with a
    traceback and status 1. *)
Definition run_main (m : M unit) (en : env) (w : world) : Z * world :=
  match m en w with
  | (Ok _, w') => (0%Z, w')
  | (Err (SystemExit c), w') => (c, w')
  | (Err _, w') => (1%Z, w')
  end.

End World.

(* ------------------------------------------------------------------ *)
(** ** Rendering of exceptions in messages ([f"{e}"]) *)

Module Render.
Import PyStr World.

Fixpoint digits_of (fuel n : nat) (acc : string) : string :=
  match fuel with
  | O => acc
  | S fuel' =>
      let acc' := String (chr (48 + n mod 10)) acc in
      if Nat.ltb n 10 then acc' else digits_of fuel' (n / 10) acc'
  end.

Definition z_str (z : Z) : string :=
  let n := Z.to_nat (Z.abs z) in
  (if Z.ltb z 0 then "-" else "") ++ digits_of (S n) n "".

(** [repr] of a list of strings, with every element quoted by [']. *)
Definition list_repr (xs : list string) : string :=
  "[" ++ String.concat ", " (map (fun x => "'" ++ x ++ "'") xs) ++ "]".

Definition exn_str (e : exn) : string :=
  match e with
  | OSError m => m
  | FileNotFoundError => "[Errno 2] No such file or directory"
  | CalledProcessError args rc _ =>
      "Command '" ++ list_repr args ++ "' returned non-zero exit status "
        ++ z_str rc ++ "."
  | SystemExit c => z_str c
  end.

End Render.

(* ------------------------------------------------------------------ *)
(** ** create_skill.py *)

Module CreateSkill.
Import PyStr World Render.

Definition metadata_json : string :=
  "{" ++ dq ++ "openclaw" ++ dq ++ ": {" ++ dq ++ "emoji" ++ dq ++ ": " ++ dq
  (* U+2728 SPARKLES, as the UTF-8 bytes written to the file *)
  ++ String (chr 226) (String (chr 156) (String (chr 168) EmptyString))
  ++ dq ++ ", " ++ dq ++ "requires" ++ dq ++ ": {" ++ dq ++ "bins" ++ dq
  ++ ": [], " ++ dq ++ "env" ++ dq ++ ": []}}}".

(** The f-string [skill_md_content]. *)
Definition skill_md_content (name description : string) : string :=
  "---" ++ nl ++
  "name: " ++ name ++ nl ++
  "description: " ++ description ++ nl ++
  "metadata: " ++ metadata_json ++ nl ++
  "---" ++ nl ++
  nl ++
  "# " ++ title (replace_char "-" " " name) ++ nl ++
  nl ++
  description ++ nl ++
  nl ++
  "## Actions" ++ nl ++
  nl.

(** [skills_root] is the directory the script computes from [__file__]
    ([<root>/skills]); it is passed explicitly. *)
Definition create_skill (skills_root : path) (name description : string)
  : M unit :=
  let skill_dir := join skills_root name in
  let scripts_dir := join skill_dir "scripts" in
  e <- exists_path skill_dir ;;
  (if e then
     print ("Error: Skill '" ++ name ++ "' already exists at "
            ++ path_str skill_dir) ;;;
     sys_exit 1
   else ret tt) ;;;
  try_except
    (makedirs scripts_dir ;;;
     print ("Created directory: " ++ path_str skill_dir) ;;;
     print ("Created directory: " ++ path_str scripts_dir) ;;;
     write_file (join skill_dir "SKILL.md")
                (skill_md_content name description) ;;;
     print ("Created SKILL.md for " ++ name))
    (fun ex => print ("Error creating skill: " ++ exn_str ex) ;;; sys_exit 1).

End CreateSkill.

(* ------------------------------------------------------------------ *)
(** ** implement_action.py *)

Module ImplementAction.
Import PyStr World Render.

(** Extension chosen from the content of [code]. *)
Definition script_ext (code : string) : string :=
  if starts_with "#!/usr/bin/env python" (strip code)
     || starts_with "import " (strip code) then ".py"
  else if starts_with "#!/usr/bin/env node" (strip code)
          || starts_with "const " (strip code) then ".js"
  else ".sh".

(** The heading searched for and written: [f"### {...title()}"]. *)
Definition action_heading (action_name : string) : string :=
  "### " ++ title (replace_char "_" " " action_name).

Definition new_action_block (action_name description script_filename : string)
  : string :=
  nl ++
  action_heading action_name ++ nl ++
  description ++ nl ++
  "```bash" ++ nl ++
  "{baseDir}/scripts/" ++ script_filename ++ nl ++
  "```" ++ nl.

Definition skill_dir (skills_root : path) (skill_name : string) : path :=
  join skills_root skill_name.
Definition skill_md_path (skills_root : path) (skill_name : string) : path :=
  join (skill_dir skills_root skill_name) "SKILL.md".
Definition scripts_dir (skills_root : path) (skill_name : string) : path :=
  join (skill_dir skills_root skill_name) "scripts".
Definition script_filename (action_name code : string) : string :=
  action_name ++ script_ext code.
Definition script_path (skills_root : path) (skill_name action_name code : string)
  : path :=
  join (scripts_dir skills_root skill_name) (script_filename action_name code).

(** 0o755 *)
Definition exec_mode : Z := 493.

(** The first [try] block: write the script and make it executable; an
    error is fatal. *)
Definition write_script (sp : path) (code : string) : M unit :=
  try_except
    (write_file sp code ;;;
     chmod sp exec_mode ;;;
     print ("Created script: " ++ path_str sp))
    (fun ex => print ("Error writing script file: " ++ exn_str ex) ;;; sys_exit 1).

Definition duplicate_warning (action_name : string) : string :=
  "Warning: Action '" ++ action_name
  ++ "' seems to already exist in SKILL.md. Skipping markdown update.".

(** The second [try] block, without its handler. *)
Definition update_skill_md (skill_name action_name description : string)
  (md : path) (fname : string) : M unit :=
  content <- read_file md ;;
  if contains (action_heading action_name) content then
    print (duplicate_warning action_name)
  else
    let block := new_action_block action_name description fname in
    (if contains "## Actions" content then append_file md block
     else append_file md (nl ++ "## Actions" ++ nl ++ block)) ;;;
    print ("Updated SKILL.md for " ++ skill_name).

Definition implement_action (skills_root : path)
  (skill_name action_name description code : string) : M unit :=
  let sd := skill_dir skills_root skill_name in
  let md := skill_md_path skills_root skill_name in
  let scd := scripts_dir skills_root skill_name in
  e <- exists_path sd ;;
  (if negb e then
     print ("Error: Skill '" ++ skill_name ++ "' not found at " ++ path_str sd) ;;;
     sys_exit 1
   else ret tt) ;;;
  e' <- exists_path scd ;;
  (if negb e' then makedirs scd else ret tt) ;;;
  let fname := script_filename action_name code in
  let sp := join scd fname in
  write_script sp code ;;;
  try_except
    (update_skill_md skill_name action_name description md fname)
    (fun ex => print ("Error updating SKILL.md: " ++ exn_str ex)).

End ImplementAction.

(* ------------------------------------------------------------------ *)
(** ** search_skills.py *)

Module SearchSkills.
Import PyStr World Render.

(** [except subprocess.CalledProcessError] then [except FileNotFoundError];
    other exceptions propagate. *)
Definition search_handler (ex : exn) : M unit :=
  match ex with
  | CalledProcessError _ _ se =>
      print ("Error searching skills: " ++ exn_str ex) ;;;
      (if String.eqb se "" then ret tt else print ("Details: " ++ se)) ;;;
      sys_exit 1
  | FileNotFoundError =>
      print "Error: 'clawhub' CLI not found. Is it installed in the OpenClaw container?" ;;;
      sys_exit 1
  | _ => raise ex
  end.

Definition search_skills (query : string) : M unit :=
  try_except
    (stdout <- run_checked ["clawhub"; "search"; query] ;;
     let output := strip stdout in
     if String.eqb output "" then print "No skills found matching your query."
     else print output)
    search_handler.

End SearchSkills.

(* ------------------------------------------------------------------ *)
(** ** install_skill.py *)

Module InstallSkill.
Import PyStr World Render.

(** [except subprocess.CalledProcessError] then [except FileNotFoundError];
    other exceptions propagate. *)
Definition install_handler (ex : exn) : M unit :=
  match ex with
  | CalledProcessError _ _ se =>
      print ("Error installing skill: " ++ exn_str ex) ;;;
      (if String.eqb se "" then ret tt else print ("Details: " ++ se)) ;;;
      sys_exit 1
  | FileNotFoundError =>
      print "Error: 'clawhub' CLI not found. Is it installed in the OpenClaw container?" ;;;
      sys_exit 1
  | _ => raise ex
  end.

Definition install_skill (slug : string) : M unit :=
  try_except
    (print ("Installing skill: " ++ slug ++ "...") ;;;
     stdout <- run_checked ["clawhub"; "install"; slug] ;;
     print ("Skill '" ++ slug ++ "' installed successfully.") ;;;
     (if String.eqb stdout "" then ret tt else print stdout))
    install_handler.

End InstallSkill.

(* ------------------------------------------------------------------ *)
(** ** Statements read off the spec, compared with the code above *)

Module SpecSide.
Import PyStr World ImplementAction.

(** A file present at [q] after the run that was not a file before. *)
Definition is_new_file (before after : path -> option node) (q : path) : Prop :=
  (exists c m, after q = Some (File c m)) /\ ~ (exists c m, before q = Some (File c m)).

(** The extension rule list as the spec words it: the markers tested on the
    literal prefix of [code]. *)
Definition script_ext_literal (code : string) : string :=
  if starts_with "#!/usr/bin/env python" code || starts_with "import " code
  then ".py"
  else if starts_with "#!/usr/bin/env node" code || starts_with "const " code
  then ".js"
  else ".sh".

(** "Each word capitalized", with Python's notion of a word for
    [str.title]: a maximal run of cased characters (letters).  The string is
    cut into maximal runs of letters ([true]) and of other characters
    ([false]). *)
Fixpoint runs (s : string) : list (bool * string) :=
  match s with
  | EmptyString => []
  | String c r =>
      match runs r with
      | (b, w) :: t =>
          if Bool.eqb b (is_cased c) then (b, String c w) :: t
          else (is_cased c, String c EmptyString) :: (b, w) :: t
      | [] => [(is_cased c, String c EmptyString)]
      end
  end.

Fixpoint lower_all (s : string) : string :=
  match s with
  | EmptyString => EmptyString
  | String c r => String (to_lower c) (lower_all r)
  end.

(** A word capitalized: first letter upper case, the rest lower case. *)
Definition capitalize (w : string) : string :=
  match w with
  | EmptyString => EmptyString
  | String c r => String (to_upper c) (lower_all r)
  end.

(** Letter runs capitalized, other runs kept, all concatenated. *)
Fixpoint render_runs (rs : list (bool * string)) : string :=
  match rs with
  | [] => EmptyString
  | (b, w) :: t => (if b then capitalize w else w) ++ render_runs t
  end.

Definition capitalize_words (s : string) : string := render_runs (runs s).

End SpecSide.

(* ------------------------------------------------------------------ *)
(** ** Concrete worlds used to run the scripts on examples *)

Module Examples.
Import PyStr World.

Definition ex_root : path := ["skills"].

(** SKILL.md as [create_skill.py] writes it for the skill [demo]. *)
Definition ex_doc : string := CreateSkill.skill_md_content "demo" "Demo skill".

(** The same document with a fenced code block mentioning [### Do It]. *)
Definition ex_fenced_doc : string :=
  ex_doc ++ "```bash" ++ nl ++ "echo '### Do It'" ++ nl ++ "```" ++ nl.

(** An action name with a carriage return inside: ["a\rb"]. *)
Definition ex_cr_action : string := String "a" (String (chr 13) "b").

(** SKILL.md of [demo] with a line [### A\rB], the heading of [ex_cr_action]
    as [implement_action.py] writes it. *)
Definition ex_cr_doc : string :=
  ex_doc ++ ImplementAction.action_heading ex_cr_action ++ nl.

(** Only the skills root exists. *)
Definition ex_empty_fs : path -> option node :=
  fun q => if path_eqb q ex_root then Some Dir else None.

(** The skill [demo] with its scripts directory and the given SKILL.md. *)
Definition ex_skill_fs (doc : string) : path -> option node :=
  fun q =>
    if path_eqb q ex_root then Some Dir
    else if path_eqb q ["skills"; "demo"] then Some Dir
    else if path_eqb q ["skills"; "demo"; "scripts"] then Some Dir
    else if path_eqb q ["skills"; "demo"; "SKILL.md"] then Some (File doc 420)
    else None.

Definition ex_empty_world : world := mkWorld ex_empty_fs [].
Definition ex_skill_world (doc : string) : world := mkWorld (ex_skill_fs doc) [].

(** The umask 0o022. *)
Definition ex_umask : Z := 18.

(** No I/O error; [clawhub] prints [stdout] and exits 0. *)
Definition ex_env (stdout : string) : env :=
  mkEnv (fun _ => false) (fun _ => None) ex_umask (fun _ => ProcExited 0 stdout "").

(** Opening for writing fails everywhere. *)
Definition ex_write_fault_env : env :=
  mkEnv (fun o => match o with OpOpenWrite _ => true | _ => false end)
        (fun _ => None) ex_umask (fun _ => ProcExited 0 "" "").

(** Opening for reading fails everywhere. *)
Definition ex_read_fault_env : env :=
  mkEnv (fun o => match o with OpOpenRead _ => true | _ => false end)
        (fun _ => None) ex_umask (fun _ => ProcExited 0 "" "").

(** No I/O error; [clawhub] exits with [rc] and writes [stderr]. *)
Definition ex_fail_env (rc : Z) (stderr : string) : env :=
  mkEnv (fun _ => false) (fun _ => None) ex_umask (fun _ => ProcExited rc "" stderr).

(** No I/O error; [clawhub] is not installed. *)
Definition ex_no_tool_env : env :=
  mkEnv (fun _ => false) (fun _ => None) ex_umask (fun _ => ProcNotFound).

(** Writing SKILL.md of [demo] fails once the file is open, after [k]
    characters reached it (the disk fills up); nothing else fails. *)
Definition ex_md_write_fault_env (k : nat) : env :=
  mkEnv (fun o => match o with
                  | OpOpenWrite p => path_eqb p ["skills"; "demo"; "SKILL.md"]
                  | _ => false
                  end)
        (fun _ => Some k) ex_umask (fun _ => ProcExited 0 "" "").

(** The skill [demo] with its scripts directory but no SKILL.md. *)
Definition ex_no_md_fs : path -> option node :=
  fun q =>
    if path_eqb q ex_root then Some Dir
    else if path_eqb q ["skills"; "demo"] then Some Dir
    else if path_eqb q ["skills"; "demo"; "scripts"] then Some Dir
    else None.

(** The skill [demo] with SKILL.md but no scripts directory. *)
Definition ex_no_scripts_fs : path -> option node :=
  fun q =>
    if path_eqb q ex_root then Some Dir
    else if path_eqb q ["skills"; "demo"] then Some Dir
    else if path_eqb q ["skills"; "demo"; "SKILL.md"] then Some (File ex_doc 420)
    else None.

End Examples.

(* ================================================================== *)
(** * Proofs *)

(** ** Paths *)

Module PathFacts.
Import World.

Lemma path_eqb_eq (p q : path) : path_eqb p q = true <-> p = q.
Proof.
  revert q; induction p as [|a p IH]; intros [|b q]; simpl; split;
    try discriminate; try reflexivity.
  - intros H; apply andb_prop in H as [H1 H2].
    apply String.eqb_eq in H1; apply IH in H2; subst; reflexivity.
  - intros H; injection H as -> ->.
    rewrite String.eqb_refl; apply IH; reflexivity.
Qed.

Lemma path_eqb_refl (p : path) : path_eqb p p = true.
Proof. apply path_eqb_eq; reflexivity. Qed.

Lemma path_eqb_neq (p q : path) : p <> q -> path_eqb p q = false.
Proof.
  intros H; destruct (path_eqb p q) eqn:E; [|reflexivity].
  apply path_eqb_eq in E; contradiction.
Qed.

Lemma upd_same f p n : upd f p n p = Some n.
Proof. unfold upd; rewrite path_eqb_refl; reflexivity. Qed.

Lemma upd_other f p n q : q <> p -> upd f p n q = f q.
Proof. intros H; unfold upd; rewrite path_eqb_neq by exact H; reflexivity. Qed.

Lemma join_inj p x q y : join p x = join q y -> p = q /\ x = y.
Proof. unfold join; intros H; apply app_inj_tail in H; exact H. Qed.

Lemma join_length p x : List.length (join p x) = S (List.length p).
Proof. unfold join; rewrite length_app; simpl; lia. Qed.

Lemma join_neq_length (p q : path) : List.length p <> List.length q -> p <> q.
Proof. intros H E; subst; apply H; reflexivity. Qed.

Lemma parent_join p x : parent (join p x) = p.
Proof. unfold parent, join; apply removelast_last. Qed.

End PathFacts.

(** ** The monad *)

Module MonadFacts.
Import World.

(** *** Running a bind forward, and inverting it *)

Lemma bind_ok {A B} (m : M A) (k : A -> M B) en w a w' :
  m en w = (Ok a, w') -> bind m k en w = k a en w'.
Proof. unfold bind; intros ->; reflexivity. Qed.

Lemma bind_err {A B} (m : M A) (k : A -> M B) en w e w' :
  m en w = (Err e, w') -> bind m k en w = (Err e, w').
Proof. unfold bind; intros ->; reflexivity. Qed.

Lemma bind_ok_inv {A B} (m : M A) (k : A -> M B) en w b w'' :
  bind m k en w = (Ok b, w'') ->
  exists a w', m en w = (Ok a, w') /\ k a en w' = (Ok b, w'').
Proof.
  unfold bind; destruct (m en w) as [[a|e] w']; intros H; [|discriminate].
  exists a, w'; split; [reflexivity|exact H].
Qed.

Lemma bind_err_inv {A B} (m : M A) (k : A -> M B) en w e w'' :
  bind m k en w = (Err e, w'') ->
  m en w = (Err e, w'') \/
  exists a w', m en w = (Ok a, w') /\ k a en w' = (Err e, w'').
Proof.
  unfold bind; destruct (m en w) as [[a|e'] w']; intros H.
  - right; exists a, w'; split; [reflexivity|exact H].
  - left; injection H as -> ->; reflexivity.
Qed.

Lemma try_ok {A} (m : M A) (h : exn -> M A) en w a w' :
  m en w = (Ok a, w') -> try_except m h en w = (Ok a, w').
Proof. unfold try_except; intros ->; reflexivity. Qed.

Lemma try_exit {A} (m : M A) (h : exn -> M A) en w c w' :
  m en w = (Err (SystemExit c), w') ->
  try_except m h en w = (Err (SystemExit c), w').
Proof. unfold try_except; intros ->; reflexivity. Qed.

Lemma try_catch {A} (m : M A) (h : exn -> M A) en w e w' :
  m en w = (Err e, w') -> (forall c, e <> SystemExit c) ->
  try_except m h en w = h e en w'.
Proof.
  unfold try_except; intros -> He; destruct e; try reflexivity.
  exfalso; eapply He; reflexivity.
Qed.

Lemma try_ok_inv {A} (m : M A) (h : exn -> M A) en w a w' :
  try_except m h en w = (Ok a, w') ->
  m en w = (Ok a, w') \/
  exists e w1, m en w = (Err e, w1) /\ h e en w1 = (Ok a, w').
Proof.
  unfold try_except; destruct (m en w) as [[a'|[msg| |args rc se|c]] w1]; intros H;
    try (right; eexists _, _; split; [reflexivity|exact H]).
  - left; exact H.
  - discriminate.
Qed.

(** *** Exit statuses *)

(** A computation whose [sys.exit] calls all pass status 1. *)
Definition exits_with_one {A} (m : M A) : Prop :=
  forall en w c w', m en w = (Err (SystemExit c), w') -> c = 1%Z.

(** A computation that raises no [SystemExit] at all. *)
Definition no_exit {A} (m : M A) : Prop :=
  forall en w c w', m en w <> (Err (SystemExit c), w').

Lemma exits_with_one_bind {A B} (m : M A) (k : A -> M B) :
  exits_with_one m -> (forall a, exits_with_one (k a)) ->
  exits_with_one (bind m k).
Proof.
  intros Hm Hk en w c w'' H; apply bind_err_inv in H as [H|(a & w' & _ & H)].
  - exact (Hm _ _ _ _ H).
  - exact (Hk a _ _ _ _ H).
Qed.

Lemma exits_with_one_try {A} (m : M A) (h : exn -> M A) :
  exits_with_one m -> (forall e, exits_with_one (h e)) ->
  exits_with_one (try_except m h).
Proof.
  intros Hm Hh en w c w' H; unfold try_except in H.
  destruct (m en w) as [[a|[msg| |args rc se|c']] w1] eqn:E;
    try (exact (Hh _ _ _ _ _ H)); try discriminate.
  injection H as -> ->; exact (Hm _ _ _ _ E).
Qed.

Lemma exits_with_one_if {A} (b : bool) (m1 m2 : M A) :
  exits_with_one m1 -> exits_with_one m2 ->
  exits_with_one (if b then m1 else m2).
Proof. destruct b; auto. Qed.

Lemma exits_with_one_sys_exit {A} : exits_with_one (@sys_exit A 1).
Proof. intros en w c w' H; injection H as -> _; reflexivity. Qed.

Lemma no_exit_exits_with_one {A} (m : M A) : no_exit m -> exits_with_one m.
Proof. intros H en w c w' E; exfalso; exact (H _ _ _ _ E). Qed.

Lemma no_exit_bind {A B} (m : M A) (k : A -> M B) :
  no_exit m -> (forall a, no_exit (k a)) -> no_exit (bind m k).
Proof.
  intros Hm Hk en w c w'' H; apply bind_err_inv in H as [H|(a & w' & _ & H)].
  - exact (Hm _ _ _ _ H).
  - exact (Hk a _ _ _ _ H).
Qed.

Ltac no_exit_prim :=
  let en := fresh "en" in let w := fresh "w" in
  let c := fresh "c" in let w' := fresh "w'" in
  intros en w c w';
  repeat (cbv [bind ret raise get_fs put_fs faulty exists_path print
               mkdir write_file chmod read_file append_file run_checked
               write_outcome_of get_umask put_written];
          match goal with
          | |- context [match ?x with _ => _ end] => destruct x
          end);
  discriminate.

Lemma no_exit_print s : no_exit (print s).
Proof. no_exit_prim. Qed.
Lemma no_exit_exists_path p : no_exit (exists_path p).
Proof. no_exit_prim. Qed.
Lemma no_exit_ret {A} (a : A) : no_exit (ret a).
Proof. no_exit_prim. Qed.
Lemma no_exit_mkdir p : no_exit (mkdir p).
Proof. no_exit_prim. Qed.
Lemma no_exit_write_file p s : no_exit (write_file p s).
Proof. no_exit_prim. Qed.
Lemma no_exit_chmod p m : no_exit (chmod p m).
Proof. no_exit_prim. Qed.
Lemma no_exit_read_file p : no_exit (read_file p).
Proof. no_exit_prim. Qed.
Lemma no_exit_append_file p s : no_exit (append_file p s).
Proof. no_exit_prim. Qed.
Lemma no_exit_run_checked args : no_exit (run_checked args).
Proof. no_exit_prim. Qed.

Lemma no_exit_makedirs p : no_exit (makedirs p).
Proof.
  unfold makedirs; induction (rev p) as [|x rhead IH].
  - intros en w c w'; discriminate.
  - simpl; apply no_exit_bind; [|intros; apply no_exit_mkdir].
    destruct rhead as [|y r]; [apply no_exit_ret|].
    apply no_exit_bind; [apply no_exit_exists_path|].
    intros [|]; [apply no_exit_ret|exact IH].
Qed.

Create HintDb exits.

#[export] Hint Resolve no_exit_print no_exit_exists_path no_exit_ret no_exit_mkdir
  no_exit_write_file no_exit_chmod no_exit_read_file no_exit_append_file
  no_exit_run_checked no_exit_makedirs : exits.

(** Proves [exits_with_one] for a script body, following its structure. *)
Ltac solve_exits :=
  repeat first
    [ progress intros
    | apply no_exit_exits_with_one; solve [auto with exits]
    | apply exits_with_one_bind
    | apply exits_with_one_try
    | apply exits_with_one_if
    | apply exits_with_one_sys_exit ].

Lemma run_main_zero (m : M unit) en w w' :
  exits_with_one m -> run_main m en w = (0%Z, w') -> m en w = (Ok tt, w').
Proof.
  unfold run_main; intros Hm.
  destruct (m en w) as [[[]|[msg| |args rc se|c]] w1] eqn:E; intros H;
    inversion H; subst; try reflexivity.
  apply Hm in E; discriminate.
Qed.

(** *** Footprints: the paths a computation may change *)

Definition frame {A} (S : path -> Prop) (m : M A) : Prop :=
  forall en w r w', m en w = (r, w') -> forall q, ~ S q -> fs w' q = fs w q.

Lemma frame_bind {A B} S (m : M A) (k : A -> M B) :
  frame S m -> (forall a, frame S (k a)) -> frame S (bind m k).
Proof.
  intros Hm Hk en w r w'' H q Hq; unfold bind in H.
  destruct (m en w) as [[a|e] w'] eqn:E.
  - rewrite (Hk a _ _ _ _ H q Hq); exact (Hm _ _ _ _ E q Hq).
  - injection H as _ <-; exact (Hm _ _ _ _ E q Hq).
Qed.

Lemma frame_try {A} S (m : M A) (h : exn -> M A) :
  frame S m -> (forall e, frame S (h e)) -> frame S (try_except m h).
Proof.
  intros Hm Hh en w r w' H q Hq; unfold try_except in H.
  destruct (m en w) as [[a|[msg| |args rc se|c]] w1] eqn:E;
    try (rewrite (Hh _ _ _ _ _ H q Hq); exact (Hm _ _ _ _ E q Hq));
    injection H as _ <-; exact (Hm _ _ _ _ E q Hq).
Qed.

Lemma frame_if {A} S (b : bool) (m1 m2 : M A) :
  frame S m1 -> frame S m2 -> frame S (if b then m1 else m2).
Proof. destruct b; auto. Qed.

Lemma frame_none {A} S (m : M A) : frame (fun _ => False) m -> frame S m.
Proof. intros H en w r w' E q _; exact (H _ _ _ _ E q (fun f => f)). Qed.

Lemma frame_at {A} S p (m : M A) : frame (fun q => q = p) m -> S p -> frame S m.
Proof.
  intros H Hp en w r w' E q Hq; apply (H _ _ _ _ E q).
  intros ->; exact (Hq Hp).
Qed.

Ltac frame_prim :=
  let en := fresh "en" in let w := fresh "w" in let r := fresh "r" in
  let w' := fresh "w'" in let q := fresh "q" in let Hq := fresh "Hq" in
  intros en w r w' H q Hq;
  repeat (cbv [bind ret raise get_fs put_fs faulty exists_path print set_fs
               mkdir write_file chmod read_file append_file run_checked
               write_outcome_of get_umask put_written] in H;
          match type of H with
          | context [match ?x with _ => _ end] => destruct x
          end);
  inversion H; subst; cbn;
  try reflexivity;
  unfold upd; rewrite PathFacts.path_eqb_neq by (intros ->; apply Hq; reflexivity);
  reflexivity.

Lemma frame_print s : frame (fun _ => False) (print s).
Proof. frame_prim. Qed.
Lemma frame_exists_path p : frame (fun _ => False) (exists_path p).
Proof. frame_prim. Qed.
Lemma frame_ret {A} (a : A) : frame (fun _ => False) (ret a).
Proof. frame_prim. Qed.
Lemma frame_raise {A} e : frame (fun _ => False) (@raise A e).
Proof. frame_prim. Qed.
Lemma frame_sys_exit {A} c : frame (fun _ => False) (@sys_exit A c).
Proof. frame_prim. Qed.
Lemma frame_read_file p : frame (fun _ => False) (read_file p).
Proof. frame_prim. Qed.
Lemma frame_run_checked args : frame (fun _ => False) (run_checked args).
Proof. frame_prim. Qed.
Lemma frame_mkdir p : frame (fun q => q = p) (mkdir p).
Proof. frame_prim. Qed.
Lemma frame_write_file p s : frame (fun q => q = p) (write_file p s).
Proof. frame_prim. Qed.
Lemma frame_chmod p m : frame (fun q => q = p) (chmod p m).
Proof. frame_prim. Qed.
Lemma frame_append_file p s : frame (fun q => q = p) (append_file p s).
Proof. frame_prim. Qed.

(** [os.makedirs(p)] changes only [p] and its ancestors. *)
Lemma frame_makedirs_rev (rp : list string) :
  frame (fun q => exists t, rev rp = (q ++ t)%list) (makedirs_rev rp).
Proof.
  induction rp as [|x rhead IH].
  - intros en w r w' H q _; injection H as _ <-; reflexivity.
  - cbn [makedirs_rev]; apply frame_bind.
    + destruct rhead as [|y rr]; [apply frame_none, frame_ret|].
      apply frame_bind; [apply frame_none, frame_exists_path|].
      intros [|]; [apply frame_none, frame_ret|].
      intros en w r w' H q Hq; apply (IH _ _ _ _ H q).
      intros [t Ht]; apply Hq; exists (t ++ [x])%list.
      cbn [rev] in Ht |- *; rewrite Ht, app_assoc; reflexivity.
    + intros _; apply frame_at with (p := rev (x :: rhead));
        [apply frame_mkdir|exists []; rewrite app_nil_r; reflexivity].
Qed.

Lemma frame_makedirs p :
  frame (fun q => exists t, p = (q ++ t)%list) (makedirs p).
Proof.
  unfold makedirs; intros en w r w' H q Hq.
  apply (frame_makedirs_rev (rev p) _ _ _ _ H q).
  rewrite rev_involutive; exact Hq.
Qed.

Lemma frame_weaken {A} (S S' : path -> Prop) (m : M A) :
  (forall q, S q -> S' q) -> frame S m -> frame S' m.
Proof. intros HS H en w r w' E q Hq; apply (H _ _ _ _ E q); auto. Qed.

Create HintDb frames.

#[export] Hint Resolve frame_print frame_exists_path frame_ret frame_raise
  frame_sys_exit frame_read_file frame_run_checked frame_mkdir frame_write_file
  frame_chmod frame_append_file : frames.

(** Footprint of a script body: [close] proves the footprint contains a
    given path. *)
Ltac solve_frame close :=
  repeat first
    [ progress intros
    | apply frame_none; solve [auto with frames]
    | eapply frame_at; [solve [auto with frames]|cbv beta; close]
    | eapply frame_weaken; [|apply frame_makedirs]; cbv beta; intros ? ?; close
    | apply frame_bind
    | apply frame_try
    | apply frame_if ].

(** *** Effects of single primitives *)

Lemma print_fs s en w u w' : print s en w = (Ok u, w') -> fs w' = fs w.
Proof. cbv [print]; intros H; inversion H; reflexivity. Qed.

Lemma chmod_ok p m en w u w' :
  chmod p m en w = (Ok u, w') ->
  forall c m0, fs w p = Some (File c m0) -> fs w' p = Some (File c m).
Proof.
  cbv [chmod bind ret raise get_fs put_fs faulty set_fs].
  destruct (fault en (OpChmod p)); [discriminate|].
  intros H c m0 Hp; rewrite Hp in H; inversion H; subst; cbn.
  apply PathFacts.upd_same.
Qed.

Lemma mkdir_ok p en w u w' :
  mkdir p en w = (Ok u, w') -> fs w' = upd (fs w) p Dir.
Proof.
  cbv [mkdir bind ret raise get_fs put_fs faulty set_fs].
  destruct (fault en (OpMkdir p)); [discriminate|].
  destruct (fs w p); [discriminate|].
  destruct (parent_is_dir (fs w) p); [|discriminate].
  intros H; inversion H; reflexivity.
Qed.

(** When the parent exists, [os.makedirs] makes just the last directory. *)
Lemma makedirs_parent_exists p x en w :
  fs w p <> None -> makedirs (join p x) en w = mkdir (join p x) en w.
Proof.
  intros Hp; unfold makedirs, join; rewrite rev_unit; cbn [makedirs_rev].
  destruct (rev p) as [|y r] eqn:E.
  - cbv [bind ret]; rewrite <- (rev_involutive p), E; reflexivity.
  - assert (Hr : rev (y :: r) = p) by (rewrite <- E; apply rev_involutive).
    cbv [bind exists_path get_fs ret]; rewrite Hr.
    destruct (fs w p); [|contradiction].
    change (rev (x :: y :: r)) with (rev (y :: r) ++ [x])%list; rewrite Hr; reflexivity.
Qed.

Lemma write_file_ok p s en w u w' :
  write_file p s en w = (Ok u, w') ->
  exists m, fs w' = upd (fs w) p (File s m).
Proof.
  cbv [write_file write_outcome_of put_written get_umask bind ret raise get_fs put_fs
       set_fs].
  destruct (fault en (OpOpenWrite p)); [destruct (written en (OpOpenWrite p))|];
    destruct (fs w p) as [[|c m]|]; try discriminate;
    try destruct (parent_is_dir (fs w) p); try discriminate;
    intros H; inversion H; subst; eexists; reflexivity.
Qed.

(** A [with open(p, "w")] statement whose I/O fails raises, whether the
    file was opened or not. *)
Lemma write_file_fault p s en w u w' :
  fault en (OpOpenWrite p) = true -> write_file p s en w <> (Ok u, w').
Proof.
  intros Hf.
  cbv [write_file write_outcome_of put_written get_umask bind ret raise get_fs put_fs
       set_fs].
  rewrite Hf; destruct (written en (OpOpenWrite p)); [|discriminate].
  destruct (fs w p) as [[|c m]|]; try discriminate.
  destruct (parent_is_dir (fs w) p); discriminate.
Qed.

End MonadFacts.

(** ** String facts *)

Module StrFacts.
Import PyStr.

Lemma rstrip_cons (c : ascii) (r : string) :
  rstrip (String c r) =
  match rstrip r with
  | EmptyString => if is_space c then EmptyString else String c EmptyString
  | r' => String c r'
  end.
Proof. reflexivity. Qed.

Lemma rstrip_idem (s : string) : rstrip (rstrip s) = rstrip s.
Proof.
  induction s as [|c r IH]; [reflexivity|].
  rewrite (rstrip_cons c r); destruct (rstrip r) as [|d t] eqn:E.
  - destruct (is_space c) eqn:Hc; simpl; [reflexivity|rewrite Hc; reflexivity].
  - rewrite (rstrip_cons c (String d t)), IH; reflexivity.
Qed.

(** Cutting trailing spaces keeps a leading non-space character. *)
Lemma rstrip_cons_nonspace (c : ascii) (r : string) :
  is_space c = false -> exists t, rstrip (String c r) = String c t.
Proof.
  intros Hc; simpl; destruct (rstrip r) as [|d t].
  - rewrite Hc; eexists; reflexivity.
  - eexists; reflexivity.
Qed.

Lemma lstrip_rstrip_lstrip (s : string) :
  lstrip (rstrip (lstrip s)) = rstrip (lstrip s).
Proof.
  induction s as [|c r IH]; [reflexivity|].
  simpl; destruct (is_space c) eqn:Hc; [exact IH|].
  destruct (rstrip_cons_nonspace c r Hc) as [t Ht]; rewrite Ht; simpl.
  rewrite Hc; reflexivity.
Qed.

Lemma strip_idem (s : string) : strip (strip s) = strip s.
Proof.
  unfold strip; rewrite lstrip_rstrip_lstrip; apply rstrip_idem.
Qed.

Lemma str_app_assoc (a b c : string) : (a ++ b) ++ c = a ++ (b ++ c).
Proof. induction a as [|x a IH]; simpl; [reflexivity|rewrite IH; reflexivity]. Qed.

Lemma starts_with_app (p q : string) : starts_with p (p ++ q) = true.
Proof.
  induction p as [|c p IH]; simpl; [reflexivity|].
  rewrite Ascii.eqb_refl; exact IH.
Qed.

Lemma contains_app_r (n a b : string) :
  contains n b = true -> contains n (a ++ b) = true.
Proof.
  induction a as [|c a IH]; simpl; intros H; [exact H|].
  rewrite (IH H); apply orb_true_r.
Qed.

(** A string contains every string it has as an infix. *)
Lemma contains_infix (n a b : string) : contains n (a ++ n ++ b) = true.
Proof.
  apply contains_app_r; destruct n as [|c n']; simpl.
  - destruct b; reflexivity.
  - rewrite Ascii.eqb_refl, (starts_with_app n' b); reflexivity.
Qed.

Lemma case_uncased (c : ascii) :
  is_cased c = false -> to_upper c = c /\ to_lower c = c.
Proof.
  unfold is_cased, to_upper, to_lower; intros H.
  apply orb_false_elim in H as [Hu Hl]; rewrite Hu, Hl; split; reflexivity.
Qed.

Lemma title_from_runs (s : string) :
  title_from false s = SpecSide.render_runs (SpecSide.runs s) /\
  title_from true s =
    match SpecSide.runs s with
    | (true, w) :: t => SpecSide.lower_all w ++ SpecSide.render_runs t
    | rs => SpecSide.render_runs rs
    end.
Proof.
  induction s as [|c r [IHf IHt]]; [split; reflexivity|].
  cbn [title_from SpecSide.runs].
  destruct (is_cased c) eqn:Hc.
  - rewrite IHt.
    destruct (SpecSide.runs r) as [|[[|] w] t]; cbn; split; reflexivity.
  - destruct (case_uncased c Hc) as [Hu Hl]; rewrite Hu, Hl, IHf.
    destruct (SpecSide.runs r) as [|[[|] w] t]; cbn; split; reflexivity.
Qed.

(** [str.title] capitalizes every maximal run of letters. *)
Lemma title_capitalize_words (s : string) :
  title s = SpecSide.capitalize_words s.
Proof. apply title_from_runs. Qed.

(** *** Carriage returns and universal newlines *)

Lemma contains_cr_cons (c : ascii) (r : string) :
  contains cr (String c r) = Ascii.eqb (chr 13) c || contains cr r.
Proof.
  change (contains cr (String c r)) with ((Ascii.eqb (chr 13) c && true) || contains cr r).
  rewrite andb_true_r; reflexivity.
Qed.

Lemma contains_cr_app (x y : string) :
  contains cr (x ++ y) = contains cr x || contains cr y.
Proof.
  induction x as [|c x IH]; [reflexivity|].
  cbn [append]; rewrite !contains_cr_cons, IH, orb_assoc; reflexivity.
Qed.

Lemma contains_cr_replace_char (a b : ascii) (s : string) :
  Ascii.eqb (chr 13) a = false -> Ascii.eqb (chr 13) b = false ->
  contains cr (replace_char a b s) = contains cr s.
Proof.
  intros Ha Hb; induction s as [|c r IH]; [reflexivity|].
  cbn [replace_char]; rewrite !contains_cr_cons, IH.
  destruct (Ascii.eqb c a) eqn:E; [|reflexivity].
  apply Ascii.eqb_eq in E; subst c; rewrite Ha, Hb; reflexivity.
Qed.

Lemma case_keeps_cr (c : ascii) :
  Ascii.eqb (chr 13) (to_upper c) = Ascii.eqb (chr 13) c /\
  Ascii.eqb (chr 13) (to_lower c) = Ascii.eqb (chr 13) c.
Proof. destruct c as [[] [] [] [] [] [] [] []]; split; reflexivity. Qed.

Lemma contains_cr_title_from (b : bool) (s : string) :
  contains cr (title_from b s) = contains cr s.
Proof.
  revert b; induction s as [|c r IH]; intros b; [reflexivity|].
  cbn [title_from]; rewrite !contains_cr_cons, IH.
  destruct b; rewrite (proj1 (case_keeps_cr c)) || rewrite (proj2 (case_keeps_cr c));
    reflexivity.
Qed.

Lemma starts_with_split (p s : string) :
  starts_with p s = true -> exists y, s = p ++ y.
Proof.
  revert s; induction p as [|c p IH]; intros s H; [exists s; reflexivity|].
  destruct s as [|d s]; [discriminate|].
  cbn [starts_with] in H; apply andb_prop in H as [Hc H].
  apply Ascii.eqb_eq in Hc; subst d.
  destruct (IH s H) as [y ->]; exists y; reflexivity.
Qed.

(** [needle in hay] holds exactly when [needle] is an infix of [hay]. *)
Lemma contains_split (n hay : string) :
  contains n hay = true -> exists x y, hay = x ++ n ++ y.
Proof.
  induction hay as [|c r IH]; intros H.
  - destruct (starts_with_split n "" H) as [y Hy]; exists "", y; exact Hy.
  - cbn [contains] in H; apply orb_prop in H as [H|H].
    + destruct (starts_with_split n _ H) as [y Hy]; exists "", y; exact Hy.
    + destruct (IH H) as (x & y & ->); exists (String c x), y; reflexivity.
Qed.

(** Text without a carriage return comes out of the decoding unchanged. *)
Lemma decode_app_no_cr (h r : string) :
  contains cr h = false ->
  World.decode_newlines_from false (h ++ r) = h ++ World.decode_newlines_from false r.
Proof.
  induction h as [|c h IH]; intros H; [reflexivity|].
  rewrite contains_cr_cons in H; apply orb_false_elim in H as [Hc H].
  cbn [append World.decode_newlines_from].
  rewrite Ascii.eqb_sym, Hc; cbn [andb]; rewrite IH by exact H; reflexivity.
Qed.

(** An infix that starts with a character other than "\r" and "\n" and
    holds no "\r" is still an infix after the decoding. *)
Lemma contains_decode_infix (c : ascii) (n x y : string) (b : bool) :
  Ascii.eqb c (chr 13) = false -> Ascii.eqb c (chr 10) = false ->
  contains cr n = false ->
  contains (String c n) (World.decode_newlines_from b (x ++ String c n ++ y)) = true.
Proof.
  intros H13 H10 Hn; revert b; induction x as [|d x IH]; intros b.
  - cbn [append World.decode_newlines_from]; rewrite H13, H10, andb_false_r.
    rewrite decode_app_no_cr by exact Hn.
    exact (contains_infix (String c n) "" _).
  - cbn [append World.decode_newlines_from].
    destruct (Ascii.eqb d (chr 13)); [|destruct (b && Ascii.eqb d (chr 10))].
    + exact (contains_app_r _ (String (chr 10) "") _ (IH true)).
    + exact (IH false).
    + exact (contains_app_r _ (String d "") _ (IH false)).
Qed.

End StrFacts.

(** ** Script extension inference *)

Module ExtensionProofs.
Import PyStr ImplementAction SpecSide StrFacts.

(** C10: the extension inferred from [code] is the one inferred from
    [code.strip()]: leading and trailing whitespace never changes it. *)
Theorem script_ext_strip_invariant (code : string) :
  script_ext code = script_ext (strip code).
Proof. unfold script_ext; rewrite strip_idem; reflexivity. Qed.

(** C5 as stated (rules applied to the literal prefix of [code]) fails:
    [" import os"] starts with a blank, which is neither a Python nor a
    JavaScript marker, so the literal rule list gives [".sh"]; the code
    strips first and gives [".py"]. *)
Lemma script_ext_literal_prefix_counterexample :
  script_ext " import os" = ".py" /\
  script_ext_literal " import os" = ".sh".
Proof. split; reflexivity. Qed.

(** C5, amended: the ordered rule list (Python marker ["#!/usr/bin/env
    python"] or ["import "] gives [".py"], else JavaScript marker
    ["#!/usr/bin/env node"] or ["const "] gives [".js"], else [".sh"]) is
    applied to the whitespace-stripped [code], not to its literal
    prefix. *)
Theorem script_ext_rules_on_stripped (code : string) :
  script_ext code = script_ext_literal (strip code).
Proof. reflexivity. Qed.

End ExtensionProofs.

(** ** create_skill *)

Module CreateSkillProofs.
Import PyStr World CreateSkill MonadFacts PathFacts.

(** C2: when the skill directory already exists, [create_skill] prints an
    error, exits with status 1 and leaves the filesystem as it was: no
    directory is created and no file is written. *)
Theorem create_skill_existing_fails (skills_root : path) (name description : string)
  (en : env) (w : world) :
  fs w (join skills_root name) <> None ->
  fst (run_main (create_skill skills_root name description) en w) = 1%Z /\
  fs (snd (run_main (create_skill skills_root name description) en w)) = fs w.
Proof.
  intros Hex.
  cbv [run_main create_skill exists_path get_fs bind ret print sys_exit raise].
  destruct (fs w (join skills_root name)); [|contradiction].
  split; reflexivity.
Qed.

Lemma create_skill_exits_with_one skills_root name description :
  exits_with_one (create_skill skills_root name description).
Proof. unfold create_skill; cbv beta zeta; solve_exits. Qed.

(** A successful run has written [skill_md_content] to SKILL.md. *)
Lemma create_skill_ok_writes skills_root name description en w w' :
  run_main (create_skill skills_root name description) en w = (0%Z, w') ->
  exists m, fs w' (join (join skills_root name) "SKILL.md")
            = Some (File (skill_md_content name description) m).
Proof.
  intros H; apply run_main_zero in H; [|apply create_skill_exits_with_one].
  unfold create_skill in H; cbv beta zeta in H.
  apply bind_ok_inv in H as (e & w1 & _ & H).
  apply bind_ok_inv in H as (u & w2 & _ & H).
  apply try_ok_inv in H as [H|(ex & w3 & _ & H)].
  - apply bind_ok_inv in H as (u1 & w3 & _ & H).
    apply bind_ok_inv in H as (u2 & w4 & _ & H).
    apply bind_ok_inv in H as (u3 & w5 & _ & H).
    apply bind_ok_inv in H as (u4 & w6 & Hw & Hp).
    apply write_file_ok in Hw as [m Hm].
    exists m; rewrite (print_fs _ _ _ _ _ Hp), Hm, upd_same; reflexivity.
  - apply bind_ok_inv in H as (u1 & w4 & _ & H); discriminate.
Qed.

(** C7: a successful [create_skill] for a new skill writes SKILL.md as a
    front-matter block, opened by ["---"], whose first field is the line
    ["name: " ++ name] and which is closed by ["---"], followed by a body
    that starts with the title line ["# " ++ T] where [T] is [name] with
    hyphens replaced by spaces and each word (maximal run of letters, as in
    Python's [str.title]) capitalized, contains [description] verbatim, and
    ends with the heading ["## Actions"] followed by an empty line. *)
Theorem create_skill_metadata_document (skills_root : path)
  (name description : string) (en : env) (w w' : world) :
  run_main (create_skill skills_root name description) en w = (0%Z, w') ->
  exists doc m front body,
    fs w' (join (join skills_root name) "SKILL.md") = Some (File doc m) /\
    doc = front ++ body /\
    (exists fields, front = "---" ++ nl ++ "name: " ++ name ++ nl ++ fields) /\
    (exists fm, front = fm ++ nl ++ "---" ++ nl) /\
    (exists rest, body = nl ++ "# "
        ++ SpecSide.capitalize_words (replace_char "-" " " name) ++ nl ++ rest) /\
    (exists a b, body = a ++ description ++ b) /\
    (exists pre, body = pre ++ nl ++ "## Actions" ++ nl ++ nl).
Proof.
  intros H; apply create_skill_ok_writes in H as [m Hm].
  set (fields := "description: " ++ description ++ nl ++
                 "metadata: " ++ metadata_json ++ nl ++ "---" ++ nl).
  set (T := title (replace_char "-" " " name)).
  exists (skill_md_content name description), m,
    ("---" ++ nl ++ "name: " ++ name ++ nl ++ fields),
    (nl ++ "# " ++ T ++ nl ++ nl ++ description ++ nl ++ nl ++
     "## Actions" ++ nl ++ nl).
  split; [exact Hm|].
  unfold skill_md_content, fields, T.
  repeat rewrite StrFacts.str_app_assoc.
  refine (conj _ (conj _ (conj _ (conj _ (conj _ _))))).
  - reflexivity.
  - eexists; reflexivity.
  - exists ("---" ++ nl ++ "name: " ++ name ++ nl ++ "description: " ++ description
            ++ nl ++ "metadata: " ++ metadata_json).
    repeat rewrite StrFacts.str_app_assoc; reflexivity.
  - rewrite StrFacts.title_capitalize_words; eexists; reflexivity.
  - exists (nl ++ "# " ++ title (replace_char "-" " " name) ++ nl ++ nl),
      (nl ++ nl ++ "## Actions" ++ nl ++ nl).
    repeat rewrite StrFacts.str_app_assoc; reflexivity.
  - exists (nl ++ "# " ++ title (replace_char "-" " " name) ++ nl ++ nl
            ++ description ++ nl).
    repeat rewrite StrFacts.str_app_assoc; reflexivity.
Qed.

End CreateSkillProofs.

(** ** implement_action *)

Module ImplementActionProofs.
Import PyStr World ImplementAction MonadFacts PathFacts.

(** C3: against a skill whose directory does not exist, [implement_action]
    exits with status 1 and changes nothing on the filesystem: no script is
    written, no mode is changed and SKILL.md is not touched. *)
Theorem implement_action_missing_skill (skills_root : path)
  (skill_name action_name description code : string) (en : env) (w : world) :
  fs w (skill_dir skills_root skill_name) = None ->
  fst (run_main (implement_action skills_root skill_name action_name description code)
         en w) = 1%Z /\
  fs (snd (run_main (implement_action skills_root skill_name action_name description code)
         en w)) = fs w.
Proof.
  intros Hnone.
  cbv [run_main implement_action exists_path get_fs bind ret print sys_exit raise].
  rewrite Hnone; split; reflexivity.
Qed.

Ltac pick3 :=
  solve [ left; assumption | right; left; reflexivity | right; right; reflexivity ].

(** [implement_action] changes at most the scripts directory and its
    ancestors, the script file and SKILL.md. *)
Lemma implement_action_footprint skills_root skill_name action_name description code :
  frame (fun q => (exists t, scripts_dir skills_root skill_name = (q ++ t)%list)
                  \/ q = script_path skills_root skill_name action_name code
                  \/ q = skill_md_path skills_root skill_name)
        (implement_action skills_root skill_name action_name description code).
Proof.
  unfold implement_action, write_script, update_skill_md; cbv beta zeta.
  solve_frame pick3.
Qed.

Lemma update_footprint skill_name action_name description md fname :
  frame (fun q => q = md)
    (try_except (update_skill_md skill_name action_name description md fname)
       (fun ex => print ("Error updating SKILL.md: " ++ Render.exn_str ex))).
Proof.
  unfold update_skill_md; solve_frame ltac:(reflexivity).
Qed.

Lemma implement_action_exits skills_root skill_name action_name description code :
  exits_with_one (implement_action skills_root skill_name action_name description code).
Proof.
  unfold implement_action, write_script, update_skill_md; cbv beta zeta.
  solve_exits.
Qed.

Lemma no_exit_update skill_name action_name description md fname :
  no_exit (update_skill_md skill_name action_name description md fname).
Proof.
  unfold update_skill_md.
  repeat first [ progress intros | solve [auto with exits] | apply no_exit_bind
               | match goal with |- no_exit (if ?b then _ else _) => destruct b end ].
Qed.

(** The documentation step never fails the run: it completes normally
    whatever happens inside it. *)
Lemma update_always_ok skill_name action_name description md fname en w :
  exists w', try_except (update_skill_md skill_name action_name description md fname)
               (fun ex => print ("Error updating SKILL.md: " ++ Render.exn_str ex)) en w
             = (Ok tt, w').
Proof.
  destruct (update_skill_md skill_name action_name description md fname en w)
    as [[[]|e] w1] eqn:E.
  - exists w1; apply try_ok; exact E.
  - destruct e as [msg| |args rc se|c];
      try (eexists; rewrite (try_catch _ _ _ _ _ _ E) by discriminate; reflexivity).
    exfalso; exact (no_exit_update _ _ _ _ _ _ _ _ _ E).
Qed.

Lemma write_script_ok sp code en w u w' :
  write_script sp code en w = (Ok u, w') -> fs w' sp = Some (File code exec_mode).
Proof.
  unfold write_script; intros H; apply try_ok_inv in H as [H|(e & w1 & _ & H)].
  - apply bind_ok_inv in H as (u1 & w1 & Hw & H).
    apply bind_ok_inv in H as (u2 & w2 & Hc & Hp).
    apply write_file_ok in Hw as [m Hm].
    rewrite (print_fs _ _ _ _ _ Hp).
    apply (chmod_ok _ _ _ _ _ _ Hc code m); rewrite Hm; apply upd_same.
  - apply bind_ok_inv in H as (u1 & w2 & _ & H); discriminate.
Qed.

(** A run that completes normally went through both [try] blocks. *)
Lemma implement_action_ok_inv skills_root skill_name action_name description code en w w' :
  implement_action skills_root skill_name action_name description code en w = (Ok tt, w') ->
  fs w (skill_dir skills_root skill_name) <> None /\
  exists w2 w3,
    write_script (script_path skills_root skill_name action_name code) code en w2
      = (Ok tt, w3) /\
    try_except (update_skill_md skill_name action_name description
                  (skill_md_path skills_root skill_name)
                  (script_filename action_name code))
      (fun ex => print ("Error updating SKILL.md: " ++ Render.exn_str ex)) en w3
      = (Ok tt, w').
Proof.
  unfold implement_action; cbv beta zeta; intros H.
  apply bind_ok_inv in H as (e & w1 & He & H).
  apply bind_ok_inv in H as (u & w2 & Hif & H).
  cbv [exists_path get_fs bind ret] in He; injection He as <- <-.
  split.
  - destruct (fs w (skill_dir skills_root skill_name)); [discriminate|].
    apply bind_ok_inv in Hif as (u' & w3 & _ & Hx); discriminate.
  - apply bind_ok_inv in H as (e' & w3 & _ & H).
    apply bind_ok_inv in H as (u' & w4 & _ & H).
    apply bind_ok_inv in H as ([] & w5 & Hws & Hup).
    exists w4, w5; split; assumption.
Qed.

Lemma script_path_length skills_root skill_name action_name code :
  List.length (script_path skills_root skill_name action_name code)
  = S (S (S (List.length skills_root))).
Proof. unfold script_path, scripts_dir, skill_dir; rewrite !join_length; reflexivity. Qed.

(** A path one level below the scripts directory is neither one of its
    ancestors nor SKILL.md. *)
Lemma below_scripts_dir skills_root skill_name x :
  ~ (exists t, scripts_dir skills_root skill_name
               = (join (scripts_dir skills_root skill_name) x ++ t)%list) /\
  join (scripts_dir skills_root skill_name) x <> skill_md_path skills_root skill_name.
Proof.
  split.
  - intros [t Ht]; apply (f_equal (@List.length string)) in Ht.
    rewrite length_app, join_length in Ht; lia.
  - apply join_neq_length; unfold skill_md_path, scripts_dir;
      rewrite !join_length; lia.
Qed.

(** C6: for an existing skill and an action whose script file does not
    exist yet, a successful [implement_action] (exit status 0) leaves the
    script file holding exactly [code] with mode 0o755, and this file is
    the only new file in the skill's scripts directory. *)
Theorem implement_action_new_script (skills_root : path)
  (skill_name action_name description code : string) (en : env) (w w' : world) :
  run_main (implement_action skills_root skill_name action_name description code) en w
    = (0%Z, w') ->
  fs w (script_path skills_root skill_name action_name code) = None ->
  fs w' (script_path skills_root skill_name action_name code)
    = Some (File code exec_mode) /\
  forall x,
    SpecSide.is_new_file (fs w) (fs w') (join (scripts_dir skills_root skill_name) x)
    <-> x = script_filename action_name code.
Proof.
  intros Hrun Hfresh.
  apply run_main_zero in Hrun; [|apply implement_action_exits].
  pose proof (implement_action_footprint skills_root skill_name action_name
                description code _ _ _ _ Hrun) as Hframe.
  apply implement_action_ok_inv in Hrun as (_ & w2 & w3 & Hws & Hup).
  assert (Hsp : fs w' (script_path skills_root skill_name action_name code)
                = Some (File code exec_mode)).
  { rewrite (update_footprint _ _ _ _ _ _ _ _ _ Hup).
    - exact (write_script_ok _ _ _ _ _ _ Hws).
    - apply join_neq_length; unfold script_path, skill_md_path, scripts_dir;
        rewrite !join_length; lia. }
  split; [exact Hsp|].
  intros x; unfold SpecSide.is_new_file; split.
  - intros [[c [m Hnew]] Hold].
    destruct (String.eqb x (script_filename action_name code)) eqn:Ex.
    + apply String.eqb_eq; exact Ex.
    + apply String.eqb_neq in Ex.
      destruct (below_scripts_dir skills_root skill_name x) as [Hanc Hmd].
      exfalso; apply Hold; exists c, m; rewrite <- Hnew; symmetry; apply Hframe.
      intros [H|[H|H]].
      * exact (Hanc H).
      * apply join_inj in H as [_ H]; exact (Ex H).
      * exact (Hmd H).
  - intros ->; split.
    + exists code, exec_mode; exact Hsp.
    + intros (c & m & Hold).
      change (join (scripts_dir skills_root skill_name) (script_filename action_name code))
        with (script_path skills_root skill_name action_name code) in Hold.
      rewrite Hfresh in Hold; discriminate.
Qed.

Lemma write_script_footprint sp code : frame (fun q => q = sp) (write_script sp code).
Proof. unfold write_script; solve_frame ltac:(reflexivity). Qed.

(** An I/O error while writing the script or changing its mode ends the
    run with [sys.exit(1)]. *)
Lemma write_script_fault sp code en w :
  fault en (OpOpenWrite sp) = true \/ fault en (OpChmod sp) = true ->
  exists w', write_script sp code en w = (Err (SystemExit 1), w').
Proof.
  intros Hf; unfold write_script.
  destruct ((write_file sp code ;;; chmod sp exec_mode ;;;
             print ("Created script: " ++ path_str sp)) en w) as [[u|e] w1] eqn:E.
  - exfalso.
    apply bind_ok_inv in E as (u1 & w2 & Hw & E).
    apply bind_ok_inv in E as (u2 & w3 & Hc & _).
    destruct Hf as [Hf|Hf].
    + exact (write_file_fault _ _ _ _ _ _ Hf Hw).
    + revert Hc; cbv [chmod bind faulty]; rewrite Hf; discriminate.
  - rewrite (try_catch _ _ _ _ _ _ E).
    + eexists; reflexivity.
    + intros c Hc; subst e.
      assert (Hne : no_exit (write_file sp code ;;; chmod sp exec_mode ;;;
                             print ("Created script: " ++ path_str sp))).
      { apply no_exit_bind; [auto with exits|].
        intros _; apply no_exit_bind; auto with exits. }
      exact (Hne _ _ _ _ E).
Qed.

(** With no I/O error on the script and its directory in place, the script
    step completes. *)
Lemma write_script_succeeds sp code en w :
  fault en (OpOpenWrite sp) = false -> fault en (OpChmod sp) = false ->
  fs w sp <> Some Dir -> fs w (parent sp) = Some Dir ->
  exists w', write_script sp code en w = (Ok tt, w').
Proof.
  intros Hw Hc Hd Hp; unfold write_script.
  cbv [try_except write_file write_outcome_of put_written get_umask chmod bind faulty
       get_fs put_fs ret raise print set_fs].
  rewrite Hw, Hc.
  destruct (fs w sp) as [[|c m]|] eqn:Hsp; [contradiction| |].
  - cbn; rewrite upd_same; eexists; reflexivity.
  - unfold parent_is_dir; rewrite Hp; cbn; rewrite upd_same; eexists; reflexivity.
Qed.

(** C4: (a) when opening the script file for writing or changing its mode
    fails, the run ends with status 1 and SKILL.md is left as it was;
    (b) when the script is written, the run ends with status 0 and the
    script stays in place whatever happens while SKILL.md is updated; in
    particular (c) a failure to read SKILL.md is only reported on the
    console. *)
Theorem implement_action_failure_asymmetry (skills_root : path)
  (skill_name action_name description code : string) (en : env) (w : world) :
  let run := run_main (implement_action skills_root skill_name action_name
                         description code) en w in
  let sp := script_path skills_root skill_name action_name code in
  let md := skill_md_path skills_root skill_name in
  ((fault en (OpOpenWrite sp) = true \/ fault en (OpChmod sp) = true) ->
   fst run = 1%Z /\ fs (snd run) md = fs w md) /\
  (fs w (skill_dir skills_root skill_name) = Some Dir ->
   fs w (scripts_dir skills_root skill_name) = Some Dir ->
   fs w sp <> Some Dir ->
   fault en (OpOpenWrite sp) = false -> fault en (OpChmod sp) = false ->
   fst run = 0%Z /\
   fs (snd run) sp = Some (File code exec_mode) /\
   (fault en (OpOpenRead md) = true ->
    last (out (snd run)) "" = "Error updating SKILL.md: open for reading failed")).
Proof.
  cbv zeta.
  assert (Hmd_anc : ~ (exists t, scripts_dir skills_root skill_name
                                 = (skill_md_path skills_root skill_name ++ t)%list)).
  { unfold scripts_dir, skill_md_path, join; intros [t Ht].
    rewrite <- app_assoc in Ht; apply app_inv_head in Ht; discriminate. }
  assert (Hmd_sp : skill_md_path skills_root skill_name
                   <> script_path skills_root skill_name action_name code).
  { apply join_neq_length; unfold script_path, skill_md_path, scripts_dir;
      rewrite !join_length; lia. }
  split.
  - intros Hf.
    assert (Hws : forall w0, exists w', write_script
                    (script_path skills_root skill_name action_name code) code en w0
                    = (Err (SystemExit 1), w'))
      by (intros w0; apply write_script_fault; exact Hf).
    unfold run_main, implement_action; cbv beta zeta.
    cbv [bind exists_path get_fs ret print sys_exit raise negb].
    fold (script_path skills_root skill_name action_name code).
    destruct (fs w (skill_dir skills_root skill_name)); [|split; reflexivity].
    destruct (fs w (scripts_dir skills_root skill_name)).
    + specialize (Hws w); destruct Hws as [w3 Hws]; rewrite Hws.
      split; [reflexivity|].
      apply (write_script_footprint _ _ _ _ _ _ Hws); exact Hmd_sp.
    + destruct (makedirs (scripts_dir skills_root skill_name) en w)
        as [[u|e] w2] eqn:Hmk.
      * destruct (Hws w2) as [w3 Hws2]; rewrite Hws2.
        split; [reflexivity|].
        rewrite (write_script_footprint _ _ _ _ _ _ Hws2) by exact Hmd_sp.
        exact (frame_makedirs _ _ _ _ _ Hmk _ Hmd_anc).
      * destruct e as [msg| |args rc se|c];
          [ | | | exfalso; exact (no_exit_makedirs _ _ _ _ _ Hmk) ];
          (split; [reflexivity|exact (frame_makedirs _ _ _ _ _ Hmk _ Hmd_anc)]).
  - intros Hsd Hscd Hspd Hw Hc.
    destruct (write_script_succeeds (script_path skills_root skill_name action_name code)
                code en w Hw Hc Hspd) as [w1 Hws].
    { unfold script_path; rewrite parent_join; exact Hscd. }
    destruct (update_always_ok skill_name action_name description
                (skill_md_path skills_root skill_name)
                (script_filename action_name code) en w1) as [w' Hup].
    assert (Hrun : implement_action skills_root skill_name action_name description code en w
                   = (Ok tt, w')).
    { unfold implement_action; cbv beta zeta.
      cbv [bind exists_path get_fs ret negb]; rewrite Hsd, Hscd.
      change (join (scripts_dir skills_root skill_name) (script_filename action_name code))
        with (script_path skills_root skill_name action_name code).
      rewrite Hws; exact Hup. }
    unfold run_main; rewrite Hrun; cbn [fst snd].
    split; [reflexivity|split].
    + rewrite (update_footprint _ _ _ _ _ _ _ _ _ Hup) by (intros H; exact (Hmd_sp (eq_sym H))).
      exact (write_script_ok _ _ _ _ _ _ Hws).
    + intros Hr.
      assert (Herr : update_skill_md skill_name action_name description
                       (skill_md_path skills_root skill_name)
                       (script_filename action_name code) en w1
                     = (Err (OSError "open for reading failed"), w1)).
      { unfold update_skill_md; cbv [bind read_file faulty]; rewrite Hr; reflexivity. }
      rewrite (try_catch _ _ _ _ _ _ Herr) in Hup by discriminate.
      cbv [print] in Hup; injection Hup as <-; cbn.
      apply last_last.
Qed.

(** For an existing skill, [os.makedirs(scripts_dir)] is one [mkdir]. *)
Lemma implement_action_existing_skill skills_root skill_name action_name description code
  en w :
  fs w (skill_dir skills_root skill_name) <> None ->
  implement_action skills_root skill_name action_name description code en w =
  ((match fs w (scripts_dir skills_root skill_name) with
    | Some _ => ret tt
    | None => mkdir (scripts_dir skills_root skill_name)
    end) ;;;
   write_script (script_path skills_root skill_name action_name code) code ;;;
   try_except (update_skill_md skill_name action_name description
                 (skill_md_path skills_root skill_name)
                 (script_filename action_name code))
     (fun ex => print ("Error updating SKILL.md: " ++ Render.exn_str ex))) en w.
Proof.
  intros Hsd; unfold implement_action; cbv beta zeta.
  cbv [bind exists_path get_fs ret negb].
  destruct (fs w (skill_dir skills_root skill_name)) eqn:Esd; [|contradiction].
  destruct (fs w (scripts_dir skills_root skill_name)); [reflexivity|].
  unfold scripts_dir; rewrite makedirs_parent_exists by (rewrite Esd; discriminate);
    reflexivity.
Qed.

Lemma write_script_exits sp code : exits_with_one (write_script sp code).
Proof. unfold write_script; solve_exits. Qed.

(** SKILL.md whose decoded text contains the heading: only the warning is
    printed. *)
Lemma update_duplicate skill_name action_name description md fname en w c m :
  fault en (OpOpenRead md) = false ->
  fs w md = Some (File c m) ->
  contains (action_heading action_name) (decode_newlines c) = true ->
  try_except (update_skill_md skill_name action_name description md fname)
    (fun ex => print ("Error updating SKILL.md: " ++ Render.exn_str ex)) en w
  = (Ok tt, mkWorld (fs w) (out w ++ [duplicate_warning action_name])%list).
Proof.
  intros Hr Hmd Hc; apply try_ok.
  unfold update_skill_md; cbv [bind read_file faulty get_fs ret raise].
  rewrite Hr, Hmd; cbv beta iota; rewrite Hc; reflexivity.
Qed.

(** For an action name without "\r", the heading starts with "#" and holds
    no "\r". *)
Lemma action_heading_no_cr action_name :
  contains cr action_name = false ->
  exists n, action_heading action_name = String "#" n /\ contains cr n = false.
Proof.
  intros H; exists ("## " ++ title (replace_char "_" " " action_name)); split;
    [reflexivity|].
  rewrite StrFacts.contains_cr_app; unfold title.
  rewrite StrFacts.contains_cr_title_from, StrFacts.contains_cr_replace_char
    by reflexivity.
  exact H.
Qed.

(** Such a heading found in the stored text is found in the decoded text. *)
Lemma heading_survives_decoding action_name c :
  contains cr action_name = false ->
  contains (action_heading action_name) c = true ->
  contains (action_heading action_name) (decode_newlines c) = true.
Proof.
  intros Hn Hc; destruct (action_heading_no_cr _ Hn) as (n & Hh & Hn').
  apply StrFacts.contains_split in Hc as (x & y & ->).
  rewrite Hh; apply StrFacts.contains_decode_infix; [reflexivity|reflexivity|exact Hn'].
Qed.

(** After an appended action block, the decoded text contains its heading. *)
Lemma heading_in_block action_name description fname x :
  contains cr action_name = false ->
  contains (action_heading action_name)
    (decode_newlines (x ++ new_action_block action_name description fname)) = true.
Proof.
  intros Hn; destruct (action_heading_no_cr _ Hn) as (n & Hh & Hn').
  unfold new_action_block.
  rewrite <- (StrFacts.str_app_assoc x nl), Hh.
  apply StrFacts.contains_decode_infix; [reflexivity|reflexivity|exact Hn'].
Qed.

(** Without I/O errors, and for an action name without "\r", the decoded
    SKILL.md contains the heading after the update. *)
Lemma update_records_heading skill_name action_name description md fname en w c m :
  contains cr action_name = false ->
  fault en (OpOpenRead md) = false -> fault en (OpOpenAppend md) = false ->
  fs w md = Some (File c m) ->
  exists w' c',
    try_except (update_skill_md skill_name action_name description md fname)
      (fun ex => print ("Error updating SKILL.md: " ++ Render.exn_str ex)) en w
    = (Ok tt, w') /\
    fs w' md = Some (File c' m) /\
    contains (action_heading action_name) (decode_newlines c') = true.
Proof.
  intros Hn Hr Ha Hmd.
  destruct (contains (action_heading action_name) (decode_newlines c)) eqn:Hc.
  - eexists _, c; split; [apply (update_duplicate _ _ _ _ _ _ _ c m Hr Hmd Hc)|].
    split; [exact Hmd|exact Hc].
  - set (block := new_action_block action_name description fname).
    destruct (contains "## Actions" (decode_newlines c)) eqn:Hact.
    + eexists _, (c ++ block); split; [apply try_ok|split].
      * unfold update_skill_md; cbv [bind read_file append_file write_outcome_of
                                      put_written faulty get_fs put_fs ret raise print
                                      set_fs].
        rewrite Hr, Hmd; cbv beta iota; rewrite Hc, Hact, Ha, Hmd; reflexivity.
      * cbn; apply upd_same.
      * apply heading_in_block; exact Hn.
    + eexists _, (c ++ (nl ++ "## Actions" ++ nl ++ block)); split; [apply try_ok|split].
      * unfold update_skill_md; cbv [bind read_file append_file write_outcome_of
                                      put_written faulty get_fs put_fs ret raise print
                                      set_fs].
        rewrite Hr, Hmd; cbv beta iota; rewrite Hc, Hact, Ha, Hmd; reflexivity.
      * cbn; apply upd_same.
      * rewrite <- !StrFacts.str_app_assoc; apply heading_in_block; exact Hn.
Qed.

Lemma scripts_dir_neq_script_path skills_root skill_name action_name code :
  scripts_dir skills_root skill_name <> script_path skills_root skill_name action_name code.
Proof.
  apply join_neq_length; unfold script_path, scripts_dir; rewrite !join_length; lia.
Qed.

Lemma md_neq_script_path skills_root skill_name action_name code :
  skill_md_path skills_root skill_name <> script_path skills_root skill_name action_name code.
Proof.
  apply join_neq_length; unfold script_path, skill_md_path, scripts_dir;
    rewrite !join_length; lia.
Qed.

Lemma md_neq_scripts_dir skills_root skill_name :
  skill_md_path skills_root skill_name <> scripts_dir skills_root skill_name.
Proof.
  unfold skill_md_path, scripts_dir; intros H; apply join_inj in H as [_ H];
    discriminate.
Qed.

Lemma skill_dir_neq_paths skills_root skill_name action_name code :
  skill_dir skills_root skill_name <> script_path skills_root skill_name action_name code /\
  skill_dir skills_root skill_name <> scripts_dir skills_root skill_name /\
  skill_dir skills_root skill_name <> skill_md_path skills_root skill_name.
Proof.
  unfold script_path, scripts_dir, skill_md_path;
    repeat split; apply join_neq_length; rewrite !join_length; lia.
Qed.

(** A run that completes normally: the state [w3] reached before the
    documentation step differs from the initial one only at the script and
    the scripts directory, which then exist. *)
Lemma implement_action_ok_doc skills_root skill_name action_name description code en w w' :
  implement_action skills_root skill_name action_name description code en w = (Ok tt, w') ->
  exists w3,
    (forall q, q <> script_path skills_root skill_name action_name code ->
               q <> scripts_dir skills_root skill_name -> fs w3 q = fs w q) /\
    fs w3 (script_path skills_root skill_name action_name code)
      = Some (File code exec_mode) /\
    fs w3 (scripts_dir skills_root skill_name) <> None /\
    try_except (update_skill_md skill_name action_name description
                  (skill_md_path skills_root skill_name)
                  (script_filename action_name code))
      (fun ex => print ("Error updating SKILL.md: " ++ Render.exn_str ex)) en w3
    = (Ok tt, w').
Proof.
  intros H.
  destruct (implement_action_ok_inv _ _ _ _ _ _ _ _ H) as [Hsd _].
  rewrite implement_action_existing_skill in H by exact Hsd.
  apply bind_ok_inv in H as (u & w0 & H0 & H).
  apply bind_ok_inv in H as ([] & w3 & Hws & Hup).
  pose proof (scripts_dir_neq_script_path skills_root skill_name action_name code) as Hne.
  assert (Hw0 : (forall q, q <> scripts_dir skills_root skill_name -> fs w0 q = fs w q) /\
                fs w0 (scripts_dir skills_root skill_name) <> None).
  { destruct (fs w (scripts_dir skills_root skill_name)) eqn:E.
    - cbv [ret] in H0; injection H0 as _ <-; split; [reflexivity|rewrite E; discriminate].
    - apply mkdir_ok in H0; rewrite H0; split.
      + intros q Hq; apply upd_other; exact Hq.
      + rewrite upd_same; discriminate. }
  destruct Hw0 as [Hw0 Hscd].
  exists w3; split; [|split; [|split]].
  - intros q Hq1 Hq2; rewrite (write_script_footprint _ _ _ _ _ _ Hws q Hq1).
    apply Hw0; exact Hq2.
  - exact (write_script_ok _ _ _ _ _ _ Hws).
  - rewrite (write_script_footprint _ _ _ _ _ _ Hws); [exact Hscd|exact Hne].
  - exact Hup.
Qed.

(** C9 (as amended): the duplicate test is [heading in content] over the
    whole of SKILL.md as read in text mode.  For an action name without a
    carriage return, whenever ["### " ++ title(action_name with _ -> space)]
    occurs anywhere in SKILL.md (a heading, a description, a code fence),
    a run that completes leaves SKILL.md unchanged and ends by printing the
    duplicate warning. *)
Theorem implement_action_duplicate_substring (skills_root : path)
  (skill_name action_name description code : string) (en : env) (w w' : world)
  (c : string) (m : Z) :
  contains cr action_name = false ->
  run_main (implement_action skills_root skill_name action_name description code) en w
    = (0%Z, w') ->
  fs w (skill_md_path skills_root skill_name) = Some (File c m) ->
  fault en (OpOpenRead (skill_md_path skills_root skill_name)) = false ->
  contains (action_heading action_name) c = true ->
  fs w' (skill_md_path skills_root skill_name) = fs w (skill_md_path skills_root skill_name) /\
  last (out w') "" = duplicate_warning action_name.
Proof.
  intros Hn Hrun Hmd Hr Hc.
  apply (heading_survives_decoding _ _ Hn) in Hc.
  apply run_main_zero in Hrun; [|apply implement_action_exits].
  destruct (implement_action_ok_doc _ _ _ _ _ _ _ _ Hrun) as (w3 & Hfr & _ & _ & Hup).
  assert (Hmd3 : fs w3 (skill_md_path skills_root skill_name) = Some (File c m)).
  { rewrite Hfr; [exact Hmd|apply md_neq_script_path|apply md_neq_scripts_dir]. }
  rewrite (update_duplicate _ _ _ _ _ _ _ _ _ Hr Hmd3 Hc) in Hup.
  injection Hup as <-; cbn; split.
  - rewrite Hmd3, Hmd; reflexivity.
  - apply last_last.
Qed.

(** C1 (as amended): for an action name without a carriage return, after a
    first run that completed without I/O errors, a second run with the same
    [action_name] leaves SKILL.md unchanged; when it completes it has
    written [code2] to [<action_name><ext(code2)>], printed the duplicate
    warning last, and changed no other path. *)
Theorem implement_action_repeat_action (skills_root : path)
  (skill_name action_name d1 d2 code1 code2 : string) (en : env)
  (w w1 w2 : world) (st2 : Z) (c : string) (m : Z) :
  contains cr action_name = false ->
  (forall o, fault en o = false) ->
  fs w (skill_md_path skills_root skill_name) = Some (File c m) ->
  run_main (implement_action skills_root skill_name action_name d1 code1) en w
    = (0%Z, w1) ->
  run_main (implement_action skills_root skill_name action_name d2 code2) en w1
    = (st2, w2) ->
  fs w2 (skill_md_path skills_root skill_name) = fs w1 (skill_md_path skills_root skill_name) /\
  (st2 = 0%Z ->
   fs w2 (script_path skills_root skill_name action_name code2)
     = Some (File code2 exec_mode) /\
   (forall q, q <> script_path skills_root skill_name action_name code2 ->
              fs w2 q = fs w1 q) /\
   last (out w2) "" = duplicate_warning action_name).
Proof.
  intros Hn Hf Hmd H1 H2.
  apply run_main_zero in H1; [|apply implement_action_exits].
  destruct (implement_action_ok_inv _ _ _ _ _ _ _ _ H1) as [Hsd _].
  destruct (implement_action_ok_doc _ _ _ _ _ _ _ _ H1) as (w3 & Hfr & _ & Hscd3 & Hup).
  pose proof (md_neq_scripts_dir skills_root skill_name) as Hmdscd.
  assert (Hmd3 : fs w3 (skill_md_path skills_root skill_name) = Some (File c m)).
  { rewrite Hfr; [exact Hmd|apply md_neq_script_path|exact Hmdscd]. }
  destruct (update_records_heading skill_name action_name d1
              (skill_md_path skills_root skill_name) (script_filename action_name code1)
              en w3 c m Hn (Hf _) (Hf _) Hmd3) as (w1' & c1 & Hup' & Hmd1 & Hc1).
  rewrite Hup in Hup'; injection Hup' as <-.
  pose proof (update_footprint _ _ _ _ _ _ _ _ _ Hup) as Hfr1.
  destruct (skill_dir_neq_paths skills_root skill_name action_name code1)
    as (Hsdsp & Hsdscd & Hsdmd).
  assert (Hsd1 : fs w1 (skill_dir skills_root skill_name) <> None).
  { rewrite Hfr1 by exact Hsdmd; rewrite Hfr by assumption; exact Hsd. }
  assert (Hscd1 : fs w1 (scripts_dir skills_root skill_name) <> None).
  { rewrite Hfr1 by (intros E; apply Hmdscd; symmetry; exact E); exact Hscd3. }
  unfold run_main in H2.
  rewrite implement_action_existing_skill in H2 by exact Hsd1.
  destruct (fs w1 (scripts_dir skills_root skill_name)) eqn:Escd; [|contradiction].
  cbv [bind ret] in H2.
  destruct (write_script (script_path skills_root skill_name action_name code2) code2 en w1)
    as [[u|e] w4] eqn:Hws.
  - assert (Hmd4 : fs w4 (skill_md_path skills_root skill_name) = Some (File c1 m)).
    { rewrite (write_script_footprint _ _ _ _ _ _ Hws) by apply md_neq_script_path.
      exact Hmd1. }
    rewrite (update_duplicate _ _ _ _ _ _ _ _ _ (Hf _) Hmd4 Hc1) in H2.
    injection H2 as <- <-; cbn; split.
    + rewrite Hmd4, Hmd1; reflexivity.
    + intros _; split; [|split].
      * exact (write_script_ok _ _ _ _ _ _ Hws).
      * intros q Hq; exact (write_script_footprint _ _ _ _ _ _ Hws q Hq).
      * apply last_last.
  - assert (Hmd4 : fs w4 (skill_md_path skills_root skill_name)
                   = fs w1 (skill_md_path skills_root skill_name)).
    { apply (write_script_footprint _ _ _ _ _ _ Hws); apply md_neq_script_path. }
    destruct e as [msg| |args rc se|k]; injection H2 as <- <-;
      (split; [exact Hmd4|intros Hst; exfalso]); try discriminate.
    apply write_script_exits in Hws; subst k; discriminate.
Qed.

(** C1: the second run does not leave the metadata document unchanged in
    two cases.  On the skill [demo]:
    - [do_it] is implemented first with Python code, then with shell code:
      both runs exit 0 and [do_it.py] is still there, beside [do_it.sh], so
      the script is not overwritten;
    - the action ["a\rb"] is implemented twice: the heading [### A\rB] the
      first run appended is read back as [### A\nB] (universal newlines), so
      the second run does not find it and appends the block a second time. *)
Lemma implement_action_repeat_counterexample :
  (let w0 := Examples.ex_skill_world Examples.ex_doc in
   let r1 := run_main (implement_action Examples.ex_root "demo" "do_it" "Do it" "import os")
               (Examples.ex_env "") w0 in
   let r2 := run_main (implement_action Examples.ex_root "demo" "do_it" "Do it" "echo hi")
               (Examples.ex_env "") (snd r1) in
   fst r1 = 0%Z /\ fst r2 = 0%Z /\
   fs (snd r2) ["skills"; "demo"; "scripts"; "do_it.py"] = Some (File "import os" exec_mode) /\
   fs (snd r2) ["skills"; "demo"; "scripts"; "do_it.sh"] = Some (File "echo hi" exec_mode)) /\
  (let a := Examples.ex_cr_action in
   let blk := new_action_block a "Do it" (script_filename a "echo hi") in
   let w0 := Examples.ex_skill_world Examples.ex_doc in
   let md := skill_md_path Examples.ex_root "demo" in
   let r1 := run_main (implement_action Examples.ex_root "demo" a "Do it" "echo hi")
               (Examples.ex_env "") w0 in
   let r2 := run_main (implement_action Examples.ex_root "demo" a "Do it" "echo hi")
               (Examples.ex_env "") (snd r1) in
   fst r1 = 0%Z /\ fst r2 = 0%Z /\
   fs (snd r1) md = Some (File (Examples.ex_doc ++ blk) 420) /\
   fs (snd r2) md = Some (File (Examples.ex_doc ++ blk ++ blk) 420) /\
   last (out (snd r2)) "" = "Updated SKILL.md for " ++ "demo").
Proof.
  cbv zeta; split; repeat split; vm_compute; reflexivity.
Qed.

(** C9: with a carriage return in [action_name] the substring test is made
    on the decoded document, not on the bytes of the file.  SKILL.md of
    [demo] holds [### A\rB], the heading of the action ["a\rb"]; the run
    reads it as [### A\nB], finds no heading, appends the block and prints
    no warning. *)
Lemma implement_action_duplicate_cr_counterexample :
  let a := Examples.ex_cr_action in
  let md := skill_md_path Examples.ex_root "demo" in
  let r := run_main (implement_action Examples.ex_root "demo" a "Do it" "echo hi")
             (Examples.ex_env "") (Examples.ex_skill_world Examples.ex_cr_doc) in
  contains (action_heading a) Examples.ex_cr_doc = true /\
  fst r = 0%Z /\
  fs (snd r) md
    = Some (File (Examples.ex_cr_doc ++ new_action_block a "Do it" (script_filename a "echo hi"))
              420) /\
  last (out (snd r)) "" = "Updated SKILL.md for " ++ "demo".
Proof.
  cbv zeta; repeat split; vm_compute; reflexivity.
Qed.

End ImplementActionProofs.

(** ** search_skills *)

Module SearchSkillsProofs.
Import PyStr World SearchSkills.

(** C8 (as amended): when [clawhub search query] exits 0, the run exits 0,
    leaves the filesystem alone and prints exactly one line: the
    whitespace-stripped output when it is non-empty, the "no results"
    message otherwise. *)
Theorem search_prints_stripped_output (query stdout stderr : string) (en : env) (w : world) :
  run_proc en ["clawhub"; "search"; query] = ProcExited 0 stdout stderr ->
  run_main (search_skills query) en w
  = (0%Z, mkWorld (fs w)
            (out w ++ [if String.eqb (strip stdout) "" then
                         "No skills found matching your query."
                       else strip stdout])%list).
Proof.
  intros Hp; unfold run_main, search_skills, try_except, bind, run_checked.
  rewrite Hp; cbn [Z.eqb].
  destruct (String.eqb (strip stdout) ""); reflexivity.
Qed.

(** C8, the word "verbatim": the tool's output [" hit"] is printed as
    ["hit"]. *)
Lemma search_output_not_verbatim :
  out (snd (run_main (search_skills "demo") (Examples.ex_env " hit") Examples.ex_empty_world))
    = ["hit"] /\ "hit" <> " hit".
Proof. split; [vm_compute; reflexivity|discriminate]. Qed.

End SearchSkillsProofs.

(** ** install_skill and search_skills: the error paths *)

Module ToolProofs.
Import PyStr World Render SearchSkills InstallSkill MonadFacts.

Lemma run_main_snd (m : M unit) en w : snd (run_main m en w) = snd (m en w).
Proof. unfold run_main; destruct (m en w) as [[a|[]] w']; reflexivity. Qed.

Lemma run_main_status (m : M unit) en w :
  exits_with_one m -> fst (run_main m en w) = 0%Z \/ fst (run_main m en w) = 1%Z.
Proof.
  unfold run_main; intros Hm.
  destruct (m en w) as [[a|[msg| |args rc se|c]] w'] eqn:E; auto.
  right; exact (Hm _ _ _ _ E).
Qed.

(** [try_except] hands its handler no [SystemExit]. *)
Lemma exits_with_one_try_caught {A} (m : M A) (h : exn -> M A) :
  exits_with_one m -> (forall e, (forall c, e <> SystemExit c) -> exits_with_one (h e)) ->
  exits_with_one (try_except m h).
Proof.
  intros Hm Hh en w c w' H; unfold try_except in H.
  destruct (m en w) as [[a|[msg| |args rc se|c']] w1] eqn:E;
    try discriminate;
    try (refine (Hh _ _ _ _ _ _ H); discriminate).
  injection H as -> ->; exact (Hm _ _ _ _ E).
Qed.

Lemma raise_other_exits {A} e : (forall c, e <> SystemExit c) -> exits_with_one (@raise A e).
Proof. intros He en w c w' H; injection H as H _; exfalso; exact (He c H). Qed.

Lemma install_skill_exits slug : exits_with_one (install_skill slug).
Proof.
  unfold install_skill; apply exits_with_one_try_caught; [solve_exits|].
  intros [msg| |args rc se|c] Hc; cbn [install_handler];
    try (apply raise_other_exits; exact Hc); solve_exits.
Qed.

Lemma search_skills_exits query : exits_with_one (search_skills query).
Proof.
  unfold search_skills; apply exits_with_one_try_caught; [solve_exits|].
  intros [msg| |args rc se|c] Hc; cbn [search_handler];
    try (apply raise_other_exits; exact Hc); solve_exits.
Qed.

(** install: when [clawhub install slug] exits 0, the run exits 0 and
    prints the progress line, the success line and then the tool's standard
    output as captured (not stripped) when it is non-empty. *)
Theorem install_skill_success (slug stdout stderr : string) (en : env) (w : world) :
  run_proc en ["clawhub"; "install"; slug] = ProcExited 0 stdout stderr ->
  fst (run_main (install_skill slug) en w) = 0%Z /\
  out (snd (run_main (install_skill slug) en w))
  = List.app (out w)
      (List.app ["Installing skill: " ++ slug ++ "...";
                 "Skill '" ++ slug ++ "' installed successfully."]
         (if String.eqb stdout "" then [] else [stdout])).
Proof.
  intros Hp; unfold run_main, install_skill, try_except, bind, run_checked, print, ret.
  rewrite Hp; cbn [Z.eqb fs out].
  destruct (String.eqb stdout ""); cbn [fst snd fs out];
    rewrite <- !app_assoc; split; reflexivity.
Qed.

(** install: when [clawhub install slug] exits with a non-zero status, the
    run exits 1, never prints the success line, and prints the progress
    line, an error line and, when the tool wrote to its standard error,
    that text after "Details: ". *)
Theorem install_skill_tool_fails (slug stdout stderr : string) (rc : Z) (en : env)
  (w : world) :
  rc <> 0%Z ->
  run_proc en ["clawhub"; "install"; slug] = ProcExited rc stdout stderr ->
  fst (run_main (install_skill slug) en w) = 1%Z /\
  exists msg,
    out (snd (run_main (install_skill slug) en w))
    = List.app (out w)
        (List.app ["Installing skill: " ++ slug ++ "...";
                   "Error installing skill: " ++ msg]
           (if String.eqb stderr "" then [] else ["Details: " ++ stderr])).
Proof.
  intros Hrc Hp.
  unfold run_main, install_skill, try_except, bind, run_checked, print, ret.
  rewrite Hp; apply Z.eqb_neq in Hrc; rewrite Hrc.
  cbv [install_handler bind print ret sys_exit raise]; cbn [fs out].
  destruct (String.eqb stderr ""); cbn [fst snd fs out];
    (split; [reflexivity|eexists; rewrite <- !app_assoc; reflexivity]).
Qed.

(** install: when [clawhub] is not installed, the run exits 1, changes no
    file and prints the progress line, then the not-found message. *)
Theorem install_skill_no_tool (slug : string) (en : env) (w : world) :
  run_proc en ["clawhub"; "install"; slug] = ProcNotFound ->
  run_main (install_skill slug) en w
  = (1%Z, mkWorld (fs w)
            (List.app (out w)
              ["Installing skill: " ++ slug ++ "...";
               "Error: 'clawhub' CLI not found. Is it installed in the OpenClaw container?"])).
Proof.
  intros Hp; unfold run_main, install_skill, try_except, bind, run_checked, print, ret.
  rewrite Hp; cbn [install_handler bind print ret sys_exit raise fs out].
  rewrite <- !app_assoc; reflexivity.
Qed.

(** search: when [clawhub search query] exits with a non-zero status, the
    run exits 1, changes no file and prints an error line and, when the tool
    wrote to its standard error, that text after "Details: "; no search
    result is printed. *)
Theorem search_skills_tool_fails (query stdout stderr : string) (rc : Z) (en : env)
  (w : world) :
  rc <> 0%Z ->
  run_proc en ["clawhub"; "search"; query] = ProcExited rc stdout stderr ->
  exists msg,
    run_main (search_skills query) en w
    = (1%Z, mkWorld (fs w)
              (List.app (out w)
                (List.app ["Error searching skills: " ++ msg]
                   (if String.eqb stderr "" then [] else ["Details: " ++ stderr])))).
Proof.
  intros Hrc Hp; eexists.
  unfold run_main, search_skills, try_except, bind, run_checked.
  rewrite Hp; apply Z.eqb_neq in Hrc; rewrite Hrc.
  cbv [search_handler bind print ret sys_exit raise]; cbn [fs out].
  destruct (String.eqb stderr ""); cbn [fs out];
    rewrite <- ?app_assoc; reflexivity.
Qed.

(** search: when [clawhub] is not installed, the run exits 1, changes no
    file and prints only the not-found message. *)
Theorem search_skills_no_tool (query : string) (en : env) (w : world) :
  run_proc en ["clawhub"; "search"; query] = ProcNotFound ->
  run_main (search_skills query) en w
  = (1%Z, mkWorld (fs w)
            (out w ++ ["Error: 'clawhub' CLI not found. Is it installed in the OpenClaw container?"])%list).
Proof.
  intros Hp; unfold run_main, search_skills, try_except, bind, run_checked.
  rewrite Hp; reflexivity.
Qed.

End ToolProofs.

Module CreateSkillExtra.
Import PyStr World Render CreateSkill MonadFacts PathFacts.

Lemma makedirs_join p x :
  makedirs (join p x)
  = ((match p with
      | [] => ret tt
      | _ :: _ => e <- exists_path p ;; if e then ret tt else makedirs p
      end) ;;; mkdir (join p x)).
Proof.
  unfold join, makedirs; rewrite rev_unit; cbn [makedirs_rev].
  change (rev (x :: rev p)) with (rev (rev p) ++ [x])%list.
  rewrite rev_involutive.
  destruct p as [|y p']; [reflexivity|].
  destruct (rev (y :: p')) as [|z r] eqn:E.
  - exfalso; cbn in E; symmetry in E; apply app_cons_not_nil in E; exact E.
  - reflexivity.
Qed.

Lemma makedirs_join2 p y x :
  makedirs (join (join p y) x)
  = ((e <- exists_path (join p y) ;; if e then ret tt else makedirs (join p y)) ;;;
     mkdir (join (join p y) x)).
Proof.
  rewrite makedirs_join; destruct (join p y) as [|z r] eqn:E; [|reflexivity].
  exfalso; unfold join in E; symmetry in E; apply app_cons_not_nil in E; exact E.
Qed.

Lemma mkdir_run p en w :
  fault en (OpMkdir p) = false -> fs w p = None -> fs w (parent p) = Some Dir ->
  mkdir p en w = (Ok tt, mkWorld (upd (fs w) p Dir) (out w)).
Proof.
  intros Hf Hn Hp; cbv [mkdir bind faulty get_fs put_fs ret raise set_fs].
  rewrite Hf, Hn; unfold parent_is_dir; rewrite Hp; reflexivity.
Qed.

(** [os.makedirs(root/name/scripts)] with [root] present and nothing at
    [root/name] makes the two directories. *)
Lemma makedirs_two root name x en w :
  fault en (OpMkdir (join root name)) = false ->
  fault en (OpMkdir (join (join root name) x)) = false ->
  fs w root = Some Dir -> fs w (join root name) = None ->
  fs w (join (join root name) x) = None ->
  makedirs (join (join root name) x) en w
  = (Ok tt, mkWorld (upd (upd (fs w) (join root name) Dir) (join (join root name) x) Dir)
                    (out w)).
Proof.
  intros Hf1 Hf2 Hr Hsd Hx; rewrite makedirs_join2.
  assert (H1 : (e <- exists_path (join root name) ;;
                if e then ret tt else makedirs (join root name)) en w
               = (Ok tt, mkWorld (upd (fs w) (join root name) Dir) (out w))).
  { cbv [bind exists_path get_fs ret]; rewrite Hsd.
    rewrite makedirs_parent_exists by (rewrite Hr; discriminate).
    apply mkdir_run; [exact Hf1|exact Hsd|rewrite parent_join; exact Hr]. }
  rewrite (bind_ok _ _ _ _ _ _ H1).
  apply (mkdir_run _ en (mkWorld (upd (fs w) (join root name) Dir) (out w)));
    [exact Hf2| |]; cbn [fs].
  - rewrite upd_other; [exact Hx|].
    apply join_neq_length; rewrite !join_length; lia.
  - rewrite parent_join, upd_same; reflexivity.
Qed.

Lemma create_skill_run (skills_root : path) (name description : string)
  (en : env) (w : world) :
  (forall o, fault en o = false) ->
  fs w skills_root = Some Dir ->
  (forall t, fs w (join skills_root name ++ t)%list = None) ->
  run_main (create_skill skills_root name description) en w
  = (0%Z, mkWorld
            (upd (upd (upd (fs w) (join skills_root name) Dir)
                      (join (join skills_root name) "scripts") Dir)
                 (join (join skills_root name) "SKILL.md")
                 (File (skill_md_content name description) (created_file_mode (umask en))))
            (List.app (out w)
               ["Created directory: " ++ path_str (join skills_root name);
                "Created directory: " ++ path_str (join (join skills_root name) "scripts");
                "Created SKILL.md for " ++ name])).
Proof.
  intros Hf Hr Hfree.
  assert (Hsd : fs w (join skills_root name) = None)
    by (rewrite <- (app_nil_r (join skills_root name)); apply Hfree).
  assert (Hscd : fs w (join (join skills_root name) "scripts") = None) by apply Hfree.
  assert (Hmd : fs w (join (join skills_root name) "SKILL.md") = None) by apply Hfree.
  unfold run_main, create_skill; cbv zeta.
  cbv [bind exists_path get_fs ret try_except print]; rewrite Hsd.
  rewrite (makedirs_two _ _ _ _ _ (Hf _) (Hf _) Hr Hsd Hscd); cbn [fs out].
  cbv [write_file write_outcome_of put_written get_umask bind faulty get_fs put_fs ret
       raise set_fs]; rewrite Hf; cbn [fs out].
  assert (N1 : join (join skills_root name) "SKILL.md" <> join (join skills_root name) "scripts")
    by (intros E; apply join_inj in E as [_ E]; discriminate).
  assert (N2 : join (join skills_root name) "SKILL.md" <> join skills_root name)
    by (apply join_neq_length; rewrite !join_length; lia).
  assert (N3 : join skills_root name <> join (join skills_root name) "scripts")
    by (apply join_neq_length; rewrite !join_length; lia).
  rewrite (upd_other _ (join (join skills_root name) "scripts")) by exact N1.
  rewrite (upd_other _ (join skills_root name)) by exact N2.
  rewrite Hmd; unfold parent_is_dir; rewrite parent_join.
  rewrite (upd_other _ (join (join skills_root name) "scripts")) by exact N3.
  rewrite upd_same; cbn [fs out].
  rewrite <- !app_assoc; reflexivity.
Qed.

(** A skill directory that exists makes create_skill stop at once. *)
Lemma create_skill_existing_run skills_root name description en w :
  fs w (join skills_root name) <> None ->
  run_main (create_skill skills_root name description) en w
  = (1%Z, mkWorld (fs w)
            (List.app (out w) ["Error: Skill '" ++ name ++ "' already exists at "
                               ++ path_str (join skills_root name)])).
Proof.
  intros H; unfold run_main, create_skill; cbv zeta.
  cbv [bind exists_path get_fs ret print sys_exit raise].
  destruct (fs w (join skills_root name)); [reflexivity|contradiction].
Qed.

(** create_skill: when the statement writing SKILL.md fails after the
    directories were made, the run exits 1 and the two directories stay
    (nothing is rolled back).  SKILL.md is then absent if [open] failed,
    and holds the first [k] characters of the document (in a file created
    with mode 0o666 & ~umask) if the write failed after [k] characters;
    either way a later create_skill with the same name fails as "already
    exists". *)
Theorem create_skill_write_failure (skills_root : path) (name description : string)
  (en : env) (w : world) :
  fault en (OpMkdir (join skills_root name)) = false ->
  fault en (OpMkdir (join (join skills_root name) "scripts")) = false ->
  fault en (OpOpenWrite (join (join skills_root name) "SKILL.md")) = true ->
  fs w skills_root = Some Dir ->
  (forall t, fs w (join skills_root name ++ t)%list = None) ->
  let r := run_main (create_skill skills_root name description) en w in
  let md := join (join skills_root name) "SKILL.md" in
  fst r = 1%Z /\
  fs (snd r) (join skills_root name) = Some Dir /\
  fs (snd r) (join (join skills_root name) "scripts") = Some Dir /\
  fs (snd r) md = match written en (OpOpenWrite md) with
                  | None => None
                  | Some k => Some (File (substring 0 k (skill_md_content name description))
                                        (created_file_mode (umask en)))
                  end /\
  (exists msg,
     out (snd r)
     = List.app (out w)
         ["Created directory: " ++ path_str (join skills_root name);
          "Created directory: " ++ path_str (join (join skills_root name) "scripts");
          "Error creating skill: " ++ msg]) /\
  forall en' description',
    fst (run_main (create_skill skills_root name description') en' (snd r)) = 1%Z.
Proof.
  intros Hf1 Hf2 Hw Hr Hfree; cbv zeta.
  set (sd := join skills_root name) in *.
  set (scd := join sd "scripts") in *.
  set (md := join sd "SKILL.md") in *.
  assert (Hsd : fs w sd = None) by (rewrite <- (app_nil_r sd); apply Hfree).
  assert (Hscd : fs w scd = None) by apply Hfree.
  assert (Hmd : fs w md = None) by apply Hfree.
  assert (N1 : md <> scd) by (intros E; apply join_inj in E as [_ E]; discriminate).
  assert (N2 : md <> sd) by (apply join_neq_length; unfold md; rewrite !join_length; lia).
  assert (N3 : sd <> scd) by (apply join_neq_length; unfold scd; rewrite !join_length; lia).
  set (f2 := upd (upd (fs w) sd Dir) scd Dir).
  assert (Hf2sd : f2 sd = Some Dir)
    by (unfold f2; rewrite upd_other by exact N3; apply upd_same).
  assert (Hf2scd : f2 scd = Some Dir) by (unfold f2; apply upd_same).
  assert (Hf2md : f2 md = None)
    by (unfold f2; rewrite !upd_other by assumption; exact Hmd).
  assert (Hrun : exists msg,
    run_main (create_skill skills_root name description) en w
    = (1%Z, mkWorld (match written en (OpOpenWrite md) with
                     | None => f2
                     | Some k => upd f2 md (File (substring 0 k
                                                   (skill_md_content name description))
                                             (created_file_mode (umask en)))
                     end)
              (List.app (out w)
                 ["Created directory: " ++ path_str sd;
                  "Created directory: " ++ path_str scd;
                  "Error creating skill: " ++ msg]))).
  { unfold run_main, create_skill; cbv zeta; fold sd scd md.
    cbv [bind exists_path get_fs ret try_except print]; rewrite Hsd.
    pose proof (makedirs_two skills_root name "scripts" en w Hf1 Hf2 Hr Hsd Hscd) as Hmk.
    fold sd scd f2 in Hmk; rewrite Hmk; cbn [fs out].
    cbv [write_file write_outcome_of put_written get_umask bind faulty get_fs put_fs ret
         raise set_fs sys_exit print]; rewrite Hw.
    destruct (written en (OpOpenWrite md)) as [k|].
    - assert (Hpar : parent md = sd) by apply parent_join.
      cbn [fs out]; rewrite Hf2md; unfold parent_is_dir; rewrite Hpar, Hf2sd.
      cbn [fs out]; eexists; rewrite <- !app_assoc; reflexivity.
    - cbn [fs out]; eexists; rewrite <- !app_assoc; reflexivity. }
  destruct Hrun as [msg Hrun]; rewrite Hrun; cbn [fst snd fs out].
  split; [reflexivity|split; [|split; [|split; [|split]]]].
  - destruct (written en (OpOpenWrite md));
      [rewrite upd_other by (apply not_eq_sym; exact N2)|]; exact Hf2sd.
  - destruct (written en (OpOpenWrite md));
      [rewrite upd_other by (apply not_eq_sym; exact N1)|]; exact Hf2scd.
  - destruct (written en (OpOpenWrite md)); [apply upd_same|exact Hf2md].
  - exists msg; reflexivity.
  - intros en' d'; rewrite create_skill_existing_run; [reflexivity|].
    fold sd; cbn [fs]; destruct (written en (OpOpenWrite md));
      [rewrite upd_other by (apply not_eq_sym; exact N2)|]; rewrite Hf2sd; discriminate.
Qed.

(** create_skill: for a skills root that is a directory and a name with
    nothing at or below [root/name], a run without I/O errors exits 0, makes
    exactly the directories [root/name] and [root/name/scripts] and the file
    [root/name/SKILL.md] (holding [skill_md_content], with mode
    0o666 & ~umask), and prints the three progress lines. *)
Theorem create_skill_success (skills_root : path) (name description : string)
  (en : env) (w : world) :
  (forall o, fault en o = false) ->
  fs w skills_root = Some Dir ->
  (forall t, fs w (join skills_root name ++ t)%list = None) ->
  run_main (create_skill skills_root name description) en w
  = (0%Z, mkWorld
            (upd (upd (upd (fs w) (join skills_root name) Dir)
                      (join (join skills_root name) "scripts") Dir)
                 (join (join skills_root name) "SKILL.md")
                 (File (skill_md_content name description) (created_file_mode (umask en))))
            (List.app (out w)
               ["Created directory: " ++ path_str (join skills_root name);
                "Created directory: " ++ path_str (join (join skills_root name) "scripts");
                "Created SKILL.md for " ++ name])).
Proof. apply create_skill_run. Qed.

(** create_skill changes no path other than [root/name/scripts] and its
    ancestors (which [os.makedirs] creates when missing) and
    [root/name/SKILL.md], whatever fails. *)
Theorem create_skill_changes_only (skills_root : path) (name description : string)
  (en : env) (w : world) (q : path) :
  ~ (exists t, join (join skills_root name) "scripts" = (q ++ t)%list) ->
  q <> join (join skills_root name) "SKILL.md" ->
  fs (snd (run_main (create_skill skills_root name description) en w)) q = fs w q.
Proof.
  intros H1 H2; rewrite ToolProofs.run_main_snd.
  assert (Hfr : frame (fun q => (exists t, join (join skills_root name) "scripts"
                                            = (q ++ t)%list)
                                \/ q = join (join skills_root name) "SKILL.md")
                  (create_skill skills_root name description)).
  { unfold create_skill; cbv zeta.
    solve_frame ltac:(solve [left; assumption | right; reflexivity]). }
  destruct (create_skill skills_root name description en w) as [r w'] eqn:E; cbn [snd].
  apply (Hfr _ _ _ _ E q); intros [H|H]; contradiction.
Qed.
End CreateSkillExtra.

Module ImplementActionExtra.
Import PyStr World Render ImplementAction MonadFacts PathFacts ImplementActionProofs.

(** SKILL.md whose decoded text lacks the heading: the block is appended,
    after a new [## Actions] line when the decoded text has none. *)
Lemma update_fresh skill_name action_name description md fname en w c m :
  fault en (OpOpenRead md) = false -> fault en (OpOpenAppend md) = false ->
  fs w md = Some (File c m) ->
  contains (action_heading action_name) (decode_newlines c) = false ->
  try_except (update_skill_md skill_name action_name description md fname)
    (fun ex => print ("Error updating SKILL.md: " ++ exn_str ex)) en w
  = (Ok tt, mkWorld
              (upd (fs w) md
                 (File (if contains "## Actions" (decode_newlines c)
                        then c ++ new_action_block action_name description fname
                        else c ++ nl ++ "## Actions" ++ nl
                               ++ new_action_block action_name description fname) m))
              (List.app (out w) ["Updated SKILL.md for " ++ skill_name])).
Proof.
  intros Hr Ha Hmd Hc; apply try_ok.
  unfold update_skill_md; cbv [bind read_file append_file write_outcome_of put_written
                                faulty get_fs put_fs ret raise print set_fs].
  rewrite Hr, Hmd; cbv beta iota; rewrite Hc.
  destruct (contains "## Actions" (decode_newlines c)); rewrite Ha, Hmd; reflexivity.
Qed.

(** For an existing skill whose scripts directory exists, once the script
    is written the run continues with the documentation step. *)
Lemma implement_action_after_script skills_root skill_name action_name description code
  en w :
  fs w (skill_dir skills_root skill_name) <> None ->
  fs w (scripts_dir skills_root skill_name) = Some Dir ->
  fault en (OpOpenWrite (script_path skills_root skill_name action_name code)) = false ->
  fault en (OpChmod (script_path skills_root skill_name action_name code)) = false ->
  fs w (script_path skills_root skill_name action_name code) <> Some Dir ->
  exists w3,
    fs w3 (script_path skills_root skill_name action_name code)
      = Some (File code exec_mode) /\
    (forall q, q <> script_path skills_root skill_name action_name code ->
               fs w3 q = fs w q) /\
    implement_action skills_root skill_name action_name description code en w
    = try_except (update_skill_md skill_name action_name description
                    (skill_md_path skills_root skill_name)
                    (script_filename action_name code))
        (fun ex => print ("Error updating SKILL.md: " ++ exn_str ex)) en w3.
Proof.
  intros Hsd Hscd Hw Hc Hnd.
  destruct (write_script_succeeds (script_path skills_root skill_name action_name code) code
              en w Hw Hc Hnd) as [w3 Hws].
  { unfold script_path; rewrite parent_join; exact Hscd. }
  exists w3; split; [exact (write_script_ok _ _ _ _ _ _ Hws)|split].
  - intros q Hq; exact (write_script_footprint _ _ _ _ _ _ Hws q Hq).
  - rewrite implement_action_existing_skill by exact Hsd; rewrite Hscd.
    cbv [bind ret]; rewrite Hws; reflexivity.
Qed.

Lemma appends_block_run (skills_root : path)
  (skill_name action_name description code : string) (en : env) (w : world)
  (c : string) (m : Z) :
  (forall o, fault en o = false) ->
  fs w (skill_dir skills_root skill_name) = Some Dir ->
  fs w (scripts_dir skills_root skill_name) = Some Dir ->
  fs w (script_path skills_root skill_name action_name code) <> Some Dir ->
  fs w (skill_md_path skills_root skill_name) = Some (File c m) ->
  contains (action_heading action_name) (decode_newlines c) = false ->
  exists w',
    run_main (implement_action skills_root skill_name action_name description code) en w
      = (0%Z, w') /\
    fs w' (skill_md_path skills_root skill_name)
      = Some (File (if contains "## Actions" (decode_newlines c)
                    then c ++ new_action_block action_name description
                                (script_filename action_name code)
                    else c ++ nl ++ "## Actions" ++ nl
                           ++ new_action_block action_name description
                                (script_filename action_name code)) m) /\
    fs w' (script_path skills_root skill_name action_name code)
      = Some (File code exec_mode) /\
    (forall q, q <> skill_md_path skills_root skill_name ->
               q <> script_path skills_root skill_name action_name code ->
               fs w' q = fs w q) /\
    last (out w') "" = "Updated SKILL.md for " ++ skill_name.
Proof.
  intros Hf Hsd Hscd Hnd Hmd Hc.
  destruct (implement_action_after_script skills_root skill_name action_name description
              code en w ltac:(rewrite Hsd; discriminate) Hscd (Hf _) (Hf _) Hnd)
    as (w3 & Hsp3 & Hfr3 & Hrun).
  assert (Hmd3 : fs w3 (skill_md_path skills_root skill_name) = Some (File c m))
    by (rewrite Hfr3; [exact Hmd|apply md_neq_script_path]).
  rewrite (update_fresh _ _ _ _ _ _ _ _ _ (Hf _) (Hf _) Hmd3 Hc) in Hrun.
  eexists; split; [unfold run_main; rewrite Hrun; reflexivity|]; cbn [fs out].
  split; [apply upd_same|split; [|split]].
  - rewrite upd_other by (apply not_eq_sym, md_neq_script_path); exact Hsp3.
  - intros q Hq1 Hq2; rewrite upd_other by exact Hq1; exact (Hfr3 q Hq2).
  - apply last_last.
Qed.

(** implement_action: for an existing skill whose SKILL.md, read in text
    mode (universal newlines), lacks the action's heading, a run without
    I/O errors exits 0, writes the script with mode 0o755, appends the
    action block to SKILL.md (preceded by a new "## Actions" line when the
    text read has none), keeps the file's mode, changes nothing else and
    ends by printing the update line. *)
Theorem implement_action_appends_block (skills_root : path)
  (skill_name action_name description code : string) (en : env) (w : world)
  (c : string) (m : Z) :
  (forall o, fault en o = false) ->
  fs w (skill_dir skills_root skill_name) = Some Dir ->
  fs w (scripts_dir skills_root skill_name) = Some Dir ->
  fs w (script_path skills_root skill_name action_name code) <> Some Dir ->
  fs w (skill_md_path skills_root skill_name) = Some (File c m) ->
  contains (action_heading action_name) (decode_newlines c) = false ->
  exists w',
    run_main (implement_action skills_root skill_name action_name description code) en w
      = (0%Z, w') /\
    fs w' (skill_md_path skills_root skill_name)
      = Some (File (if contains "## Actions" (decode_newlines c)
                    then c ++ new_action_block action_name description
                                (script_filename action_name code)
                    else c ++ nl ++ "## Actions" ++ nl
                           ++ new_action_block action_name description
                                (script_filename action_name code)) m) /\
    fs w' (script_path skills_root skill_name action_name code)
      = Some (File code exec_mode) /\
    (forall q, q <> skill_md_path skills_root skill_name ->
               q <> script_path skills_root skill_name action_name code ->
               fs w' q = fs w q) /\
    last (out w') "" = "Updated SKILL.md for " ++ skill_name.
Proof. apply appends_block_run. Qed.

(** implement_action: for an existing skill without SKILL.md, the run
    still exits 0 with the script written (mode 0o755); SKILL.md is not
    created and the run ends by reporting the documentation error. *)
Theorem implement_action_missing_skill_md (skills_root : path)
  (skill_name action_name description code : string) (en : env) (w : world) :
  fs w (skill_dir skills_root skill_name) = Some Dir ->
  fs w (scripts_dir skills_root skill_name) = Some Dir ->
  fault en (OpOpenWrite (script_path skills_root skill_name action_name code)) = false ->
  fault en (OpChmod (script_path skills_root skill_name action_name code)) = false ->
  fs w (script_path skills_root skill_name action_name code) <> Some Dir ->
  fs w (skill_md_path skills_root skill_name) = None ->
  exists w' msg,
    run_main (implement_action skills_root skill_name action_name description code) en w
      = (0%Z, w') /\
    fs w' (skill_md_path skills_root skill_name) = None /\
    fs w' (script_path skills_root skill_name action_name code)
      = Some (File code exec_mode) /\
    last (out w') "" = "Error updating SKILL.md: " ++ msg.
Proof.
  intros Hsd Hscd Hw Hc Hnd Hmd.
  destruct (implement_action_after_script skills_root skill_name action_name description
              code en w ltac:(rewrite Hsd; discriminate) Hscd Hw Hc Hnd)
    as (w3 & Hsp3 & Hfr3 & Hrun).
  assert (Hmd3 : fs w3 (skill_md_path skills_root skill_name) = None)
    by (rewrite Hfr3; [exact Hmd|apply md_neq_script_path]).
  unfold update_skill_md in Hrun.
  cbv [try_except bind read_file faulty get_fs ret raise print] in Hrun.
  destruct (fault en (OpOpenRead (skill_md_path skills_root skill_name)));
    [|rewrite Hmd3 in Hrun];
    (do 2 eexists; split; [unfold run_main; rewrite Hrun; reflexivity|]);
    cbn [fs out]; (split; [exact Hmd3|split; [exact Hsp3|apply last_last]]).
Qed.


(** implement_action: for an existing skill without a scripts directory
    (and nothing below that path), a run without errors making the
    directory and writing the script exits 0, with the scripts directory
    made and the script written with mode 0o755. *)
Theorem implement_action_makes_scripts_dir (skills_root : path)
  (skill_name action_name description code : string) (en : env) (w : world) :
  fs w (skill_dir skills_root skill_name) = Some Dir ->
  (forall t, fs w (scripts_dir skills_root skill_name ++ t)%list = None) ->
  fault en (OpMkdir (scripts_dir skills_root skill_name)) = false ->
  fault en (OpOpenWrite (script_path skills_root skill_name action_name code)) = false ->
  fault en (OpChmod (script_path skills_root skill_name action_name code)) = false ->
  fst (run_main (implement_action skills_root skill_name action_name description code)
         en w) = 0%Z /\
  fs (snd (run_main (implement_action skills_root skill_name action_name description code)
             en w)) (scripts_dir skills_root skill_name) = Some Dir /\
  fs (snd (run_main (implement_action skills_root skill_name action_name description code)
             en w)) (script_path skills_root skill_name action_name code)
    = Some (File code exec_mode).
Proof.
  intros Hsd Hfree Hm Hw Hc.
  assert (Hscd : fs w (scripts_dir skills_root skill_name) = None)
    by (rewrite <- (app_nil_r (scripts_dir skills_root skill_name)); apply Hfree).
  assert (Hsp : fs w (script_path skills_root skill_name action_name code) = None)
    by apply Hfree.
  set (w1 := mkWorld (upd (fs w) (scripts_dir skills_root skill_name) Dir) (out w)).
  assert (Hmk : mkdir (scripts_dir skills_root skill_name) en w = (Ok tt, w1)).
  { apply CreateSkillExtra.mkdir_run; [exact Hm|exact Hscd|].
    unfold scripts_dir; rewrite parent_join; exact Hsd. }
  pose proof (scripts_dir_neq_script_path skills_root skill_name action_name code) as Hne.
  destruct (write_script_succeeds (script_path skills_root skill_name action_name code) code
              en w1 Hw Hc) as [w3 Hws].
  { unfold w1; cbn [fs]; rewrite upd_other by (apply not_eq_sym; exact Hne).
    rewrite Hsp; discriminate. }
  { unfold w1, script_path; cbn [fs]; rewrite parent_join, upd_same; reflexivity. }
  destruct (update_always_ok skill_name action_name description
              (skill_md_path skills_root skill_name) (script_filename action_name code) en w3)
    as [w' Hup].
  assert (Hrun : implement_action skills_root skill_name action_name description code en w
                 = (Ok tt, w')).
  { rewrite implement_action_existing_skill by (rewrite Hsd; discriminate).
    rewrite Hscd; rewrite (bind_ok _ _ _ _ _ _ Hmk), (bind_ok _ _ _ _ _ _ Hws).
    exact Hup. }
  unfold run_main; rewrite Hrun; cbn [fst snd].
  pose proof (update_footprint _ _ _ _ _ _ _ _ _ Hup) as Hfr.
  split; [reflexivity|split].
  - rewrite Hfr by (apply not_eq_sym, md_neq_scripts_dir).
    rewrite (write_script_footprint _ _ _ _ _ _ Hws) by exact Hne.
    unfold w1; cbn [fs]; apply upd_same.
  - rewrite Hfr by (apply not_eq_sym, md_neq_script_path).
    exact (write_script_ok _ _ _ _ _ _ Hws).
Qed.

(** implement_action: every run that exits 0 leaves the script file
    holding [code] with mode 0o755, also when a file of that name existed
    before (its content and mode are replaced). *)
Theorem implement_action_ok_script (skills_root : path)
  (skill_name action_name description code : string) (en : env) (w w' : world) :
  run_main (implement_action skills_root skill_name action_name description code) en w
    = (0%Z, w') ->
  fs w' (script_path skills_root skill_name action_name code) = Some (File code exec_mode).
Proof.
  intros H; apply run_main_zero in H; [|apply implement_action_exits].
  destruct (implement_action_ok_doc _ _ _ _ _ _ _ _ H) as (w3 & _ & Hsp & _ & Hup).
  rewrite (update_footprint _ _ _ _ _ _ _ _ _ Hup) by (apply not_eq_sym, md_neq_script_path).
  exact Hsp.
Qed.

(** implement_action changes no path other than the skill's scripts
    directory, the script file and SKILL.md, whatever fails. *)
Theorem implement_action_changes_only (skills_root : path)
  (skill_name action_name description code : string) (en : env) (w : world) (q : path) :
  q <> scripts_dir skills_root skill_name ->
  q <> script_path skills_root skill_name action_name code ->
  q <> skill_md_path skills_root skill_name ->
  fs (snd (run_main (implement_action skills_root skill_name action_name description code)
             en w)) q = fs w q.
Proof.
  intros H1 H2 H3; rewrite ToolProofs.run_main_snd.
  destruct (fs w (skill_dir skills_root skill_name)) eqn:Esd.
  - rewrite implement_action_existing_skill by (rewrite Esd; discriminate).
    match goal with
    | |- fs (snd (?m en w)) q = _ =>
        assert (Hfr : frame (fun q => q = scripts_dir skills_root skill_name
                                      \/ q = script_path skills_root skill_name action_name code
                                      \/ q = skill_md_path skills_root skill_name) m);
        [|destruct (m en w) as [r w'] eqn:E; cbn [snd]; apply (Hfr _ _ _ _ E q);
          intros [->|[->| ->]]; contradiction]
    end.
    unfold write_script, update_skill_md.
    destruct (fs w (scripts_dir skills_root skill_name));
      solve_frame ltac:(solve [left; reflexivity | right; left; reflexivity
                              | right; right; reflexivity]).
  - unfold implement_action; cbv zeta.
    cbv [bind exists_path get_fs ret negb print sys_exit raise]; rewrite Esd.
    reflexivity.
Qed.


(** create_skill then implement_action: on a fresh skill name, without I/O
    errors, both runs exit 0 and SKILL.md, a file created with mode
    0o666 & ~umask, ends up as the generated document followed by the
    action block (the document has a "## Actions" line, so none is added),
    unless the generated document, read in text mode, already mentions the
    action's heading. *)
Theorem create_then_implement (skills_root : path)
  (name description action_name action_description code : string) (en : env) (w : world) :
  (forall o, fault en o = false) ->
  fs w skills_root = Some Dir ->
  (forall t, fs w (join skills_root name ++ t)%list = None) ->
  contains (action_heading action_name)
    (decode_newlines (CreateSkill.skill_md_content name description)) = false ->
  let r1 := run_main (CreateSkill.create_skill skills_root name description) en w in
  let r2 := run_main (implement_action skills_root name action_name action_description code)
              en (snd r1) in
  fst r1 = 0%Z /\ fst r2 = 0%Z /\
  fs (snd r2) (skill_md_path skills_root name)
    = Some (File (CreateSkill.skill_md_content name description
                  ++ new_action_block action_name action_description
                       (script_filename action_name code)) (created_file_mode (umask en))) /\
  fs (snd r2) (script_path skills_root name action_name code) = Some (File code exec_mode).
Proof.
  intros Hf Hr Hfree Hc r1 r2.
  subst r1 r2; rewrite (CreateSkillExtra.create_skill_run _ _ _ _ _ Hf Hr Hfree); cbn [fst snd].
  set (f1 := upd (upd (upd (fs w) (join skills_root name) Dir)
                      (join (join skills_root name) "scripts") Dir)
                 (join (join skills_root name) "SKILL.md")
                 (File (CreateSkill.skill_md_content name description) (created_file_mode (umask en)))).
  set (o1 := List.app (out w) _).
  pose proof (skill_dir_neq_paths skills_root name action_name code) as (N1 & N2 & N3).
  pose proof (md_neq_scripts_dir skills_root name) as N4.
  pose proof (md_neq_script_path skills_root name action_name code) as N5.
  pose proof (scripts_dir_neq_script_path skills_root name action_name code) as N6.
  assert (Hsd : f1 (skill_dir skills_root name) = Some Dir).
  { unfold f1; rewrite upd_other by exact N3; rewrite upd_other by exact N2; apply upd_same. }
  assert (Hscd : f1 (scripts_dir skills_root name) = Some Dir).
  { unfold f1; rewrite upd_other by (apply not_eq_sym; exact N4); apply upd_same. }
  assert (Hmd : f1 (skill_md_path skills_root name)
                = Some (File (CreateSkill.skill_md_content name description) (created_file_mode (umask en))))
    by (unfold f1; apply upd_same).
  assert (Hsp : f1 (script_path skills_root name action_name code) <> Some Dir).
  { unfold f1; rewrite upd_other by (apply not_eq_sym; exact N5).
    rewrite upd_other by (apply not_eq_sym; exact N6).
    rewrite upd_other by (apply not_eq_sym; exact N1).
    assert (E : script_path skills_root name action_name code
                = (join skills_root name ++ ["scripts"; script_filename action_name code])%list)
      by (unfold script_path, scripts_dir, skill_dir, join; rewrite <- !app_assoc;
          reflexivity).
    rewrite E, Hfree; discriminate. }
  destruct (appends_block_run skills_root name action_name action_description code en
              (mkWorld f1 o1) _ _ Hf Hsd Hscd Hsp Hmd Hc)
    as (w' & Hrun & Hmd' & Hsp' & _ & _).
  assert (Hact : contains "## Actions"
                   (decode_newlines (CreateSkill.skill_md_content name description)) = true).
  { assert (E : CreateSkill.skill_md_content name description
                 = ("---" ++ nl ++ "name: " ++ name ++ nl ++ "description: " ++ description
                    ++ nl ++ "metadata: " ++ CreateSkill.metadata_json ++ nl ++ "---" ++ nl
                    ++ nl ++ "# " ++ title (replace_char "-" " " name) ++ nl ++ nl
                    ++ description ++ nl ++ nl) ++ "## Actions" ++ nl ++ nl).
    { unfold CreateSkill.skill_md_content; rewrite !StrFacts.str_app_assoc; reflexivity. }
    rewrite E; unfold decode_newlines.
    apply (StrFacts.contains_decode_infix "#" "# Actions"); reflexivity. }
  rewrite Hact in Hmd'.
  rewrite Hrun; cbn [fst snd]; split; [reflexivity|split; [reflexivity|split]];
    assumption.
Qed.


(** The four scripts only ever terminate with status 0 or 1, whatever the
    filesystem, the I/O errors and the [clawhub] tool do. *)
Theorem scripts_exit_status (skills_root : path)
  (name description skill_name action_name code slug query : string)
  (en : env) (w : world) :
  In (fst (run_main (CreateSkill.create_skill skills_root name description) en w)) [0; 1]%Z /\
  In (fst (run_main (implement_action skills_root skill_name action_name description code)
             en w)) [0; 1]%Z /\
  In (fst (run_main (InstallSkill.install_skill slug) en w)) [0; 1]%Z /\
  In (fst (run_main (SearchSkills.search_skills query) en w)) [0; 1]%Z.
Proof.
  assert (K : forall m : M unit, exits_with_one m -> In (fst (run_main m en w)) [0; 1]%Z).
  { intros m Hm; destruct (ToolProofs.run_main_status m en w Hm) as [-> | ->];
      cbn; auto. }
  split; [|split; [|split]]; apply K.
  - apply CreateSkillProofs.create_skill_exits_with_one.
  - apply implement_action_exits.
  - apply ToolProofs.install_skill_exits.
  - apply ToolProofs.search_skills_exits.
Qed.

End ImplementActionExtra.
(** ** The theorems applied to concrete runs *)

Module Witnesses.
Import PyStr World ImplementAction Examples.

Lemma create_skill_existing_fails_witness :
  fs (ex_skill_world ex_doc) (join ex_root "demo") <> None /\
  fst (run_main (CreateSkill.create_skill ex_root "demo" "Again") (ex_env "")
         (ex_skill_world ex_doc)) = 1%Z /\
  fs (snd (run_main (CreateSkill.create_skill ex_root "demo" "Again") (ex_env "")
             (ex_skill_world ex_doc))) = fs (ex_skill_world ex_doc).
Proof.
  assert (H : fs (ex_skill_world ex_doc) (join ex_root "demo") <> None)
    by (vm_compute; discriminate).
  split; [exact H|].
  apply (CreateSkillProofs.create_skill_existing_fails ex_root "demo" "Again" (ex_env "")
           (ex_skill_world ex_doc)); exact H.
Defined.

Lemma create_skill_metadata_document_witness :
  let r := run_main (CreateSkill.create_skill ex_root "my-skill" "Does things")
             (ex_env "") ex_empty_world in
  r = (0%Z, snd r) /\
  exists doc m front body,
    fs (snd r) (join (join ex_root "my-skill") "SKILL.md") = Some (File doc m) /\
    doc = front ++ body /\
    (exists fields, front = "---" ++ nl ++ "name: " ++ "my-skill" ++ nl ++ fields) /\
    (exists fm, front = fm ++ nl ++ "---" ++ nl) /\
    (exists rest, body = nl ++ "# "
        ++ SpecSide.capitalize_words (replace_char "-" " " "my-skill") ++ nl ++ rest) /\
    (exists a b, body = a ++ "Does things" ++ b) /\
    (exists pre, body = pre ++ nl ++ "## Actions" ++ nl ++ nl).
Proof.
  cbv zeta.
  assert (H : run_main (CreateSkill.create_skill ex_root "my-skill" "Does things")
                (ex_env "") ex_empty_world
              = (0%Z, snd (run_main (CreateSkill.create_skill ex_root "my-skill" "Does things")
                             (ex_env "") ex_empty_world)))
    by (vm_compute; reflexivity).
  split; [exact H|].
  exact (CreateSkillProofs.create_skill_metadata_document ex_root "my-skill" "Does things"
           (ex_env "") ex_empty_world _ H).
Defined.

Lemma implement_action_missing_skill_witness :
  fs (ex_skill_world ex_doc) (skill_dir ex_root "ghost") = None /\
  fst (run_main (implement_action ex_root "ghost" "do_it" "Do it" "echo hi") (ex_env "")
         (ex_skill_world ex_doc)) = 1%Z /\
  fs (snd (run_main (implement_action ex_root "ghost" "do_it" "Do it" "echo hi")
             (ex_env "") (ex_skill_world ex_doc))) = fs (ex_skill_world ex_doc).
Proof.
  assert (H : fs (ex_skill_world ex_doc) (skill_dir ex_root "ghost") = None)
    by (vm_compute; reflexivity).
  split; [exact H|].
  apply (ImplementActionProofs.implement_action_missing_skill ex_root "ghost" "do_it" "Do it"
           "echo hi" (ex_env "") (ex_skill_world ex_doc)); exact H.
Defined.

Lemma implement_action_failure_asymmetry_witness :
  let md := skill_md_path ex_root "demo" in
  let sp := script_path ex_root "demo" "do_it" "echo hi" in
  let runA := run_main (implement_action ex_root "demo" "do_it" "Do it" "echo hi")
                ex_write_fault_env (ex_skill_world ex_doc) in
  let runB := run_main (implement_action ex_root "demo" "do_it" "Do it" "echo hi")
                ex_read_fault_env (ex_skill_world ex_doc) in
  (fst runA = 1%Z /\ fs (snd runA) md = fs (ex_skill_world ex_doc) md) /\
  (fst runB = 0%Z /\ fs (snd runB) sp = Some (File "echo hi" exec_mode) /\
   last (out (snd runB)) "" = "Error updating SKILL.md: open for reading failed").
Proof.
  cbv zeta.
  pose proof (ImplementActionProofs.implement_action_failure_asymmetry ex_root "demo"
                "do_it" "Do it" "echo hi" ex_write_fault_env (ex_skill_world ex_doc)) as HA.
  pose proof (ImplementActionProofs.implement_action_failure_asymmetry ex_root "demo"
                "do_it" "Do it" "echo hi" ex_read_fault_env (ex_skill_world ex_doc)) as HB.
  cbv zeta in HA, HB.
  split.
  - apply (proj1 HA); left; reflexivity.
  - destruct (proj2 HB) as (H0 & H1 & H2);
      [reflexivity|reflexivity|vm_compute; discriminate|reflexivity|reflexivity|].
    split; [exact H0|split; [exact H1|apply H2; reflexivity]].
Defined.

Lemma implement_action_new_script_witness :
  let r := run_main (implement_action ex_root "demo" "do_it" "Do it" "import os")
             (ex_env "") (ex_skill_world ex_doc) in
  let sp := script_path ex_root "demo" "do_it" "import os" in
  r = (0%Z, snd r) /\ fs (ex_skill_world ex_doc) sp = None /\
  fs (snd r) sp = Some (File "import os" exec_mode) /\
  forall x,
    SpecSide.is_new_file (fs (ex_skill_world ex_doc)) (fs (snd r))
      (join (scripts_dir ex_root "demo") x)
    <-> x = script_filename "do_it" "import os".
Proof.
  cbv zeta.
  assert (H : run_main (implement_action ex_root "demo" "do_it" "Do it" "import os")
                (ex_env "") (ex_skill_world ex_doc)
              = (0%Z, snd (run_main (implement_action ex_root "demo" "do_it" "Do it"
                                       "import os") (ex_env "") (ex_skill_world ex_doc))))
    by (vm_compute; reflexivity).
  assert (H' : fs (ex_skill_world ex_doc) (script_path ex_root "demo" "do_it" "import os")
               = None) by (vm_compute; reflexivity).
  split; [exact H|split; [exact H'|]].
  exact (ImplementActionProofs.implement_action_new_script ex_root "demo" "do_it" "Do it"
           "import os" (ex_env "") (ex_skill_world ex_doc) _ H H').
Defined.

Lemma implement_action_duplicate_substring_witness :
  let md := skill_md_path ex_root "demo" in
  let r := run_main (implement_action ex_root "demo" "do_it" "Do it" "echo hi")
             (ex_env "") (ex_skill_world ex_fenced_doc) in
  contains cr "do_it" = false /\
  contains (action_heading "do_it") ex_doc = false /\
  contains (action_heading "do_it") ex_fenced_doc = true /\
  r = (0%Z, snd r) /\
  fs (snd r) md = fs (ex_skill_world ex_fenced_doc) md /\
  last (out (snd r)) "" = duplicate_warning "do_it".
Proof.
  cbv zeta.
  assert (H : run_main (implement_action ex_root "demo" "do_it" "Do it" "echo hi")
                (ex_env "") (ex_skill_world ex_fenced_doc)
              = (0%Z, snd (run_main (implement_action ex_root "demo" "do_it" "Do it"
                                       "echo hi") (ex_env "") (ex_skill_world ex_fenced_doc))))
    by (vm_compute; reflexivity).
  assert (Hc : contains (action_heading "do_it") ex_fenced_doc = true)
    by (vm_compute; reflexivity).
  assert (Hn : contains cr "do_it" = false) by reflexivity.
  split; [exact Hn|].
  split; [vm_compute; reflexivity|split; [exact Hc|split; [exact H|]]].
  apply (ImplementActionProofs.implement_action_duplicate_substring ex_root "demo" "do_it"
           "Do it" "echo hi" (ex_env "") (ex_skill_world ex_fenced_doc) _ ex_fenced_doc 420);
    [exact Hn|exact H|reflexivity|reflexivity|exact Hc].
Defined.

Lemma implement_action_repeat_action_witness :
  let w0 := ex_skill_world ex_doc in
  let r1 := run_main (implement_action ex_root "demo" "do_it" "Do it" "echo one")
              (ex_env "") w0 in
  let r2 := run_main (implement_action ex_root "demo" "do_it" "Do it again" "echo two")
              (ex_env "") (snd r1) in
  let md := skill_md_path ex_root "demo" in
  let sp := script_path ex_root "demo" "do_it" "echo two" in
  contains cr "do_it" = false /\
  r1 = (0%Z, snd r1) /\ fst r2 = 0%Z /\
  fs (snd r2) md = fs (snd r1) md /\
  fs (snd r2) sp = Some (File "echo two" exec_mode) /\
  last (out (snd r2)) "" = duplicate_warning "do_it".
Proof.
  cbv zeta.
  assert (H1 : run_main (implement_action ex_root "demo" "do_it" "Do it" "echo one")
                 (ex_env "") (ex_skill_world ex_doc)
               = (0%Z, snd (run_main (implement_action ex_root "demo" "do_it" "Do it"
                                        "echo one") (ex_env "") (ex_skill_world ex_doc))))
    by (vm_compute; reflexivity).
  assert (Hst : fst (run_main (implement_action ex_root "demo" "do_it" "Do it again"
                                 "echo two") (ex_env "")
                       (snd (run_main (implement_action ex_root "demo" "do_it" "Do it"
                                         "echo one") (ex_env "") (ex_skill_world ex_doc))))
                = 0%Z) by (vm_compute; reflexivity).
  destruct (ImplementActionProofs.implement_action_repeat_action ex_root "demo" "do_it"
              "Do it" "Do it again" "echo one" "echo two" (ex_env "")
              (ex_skill_world ex_doc) _ _ _ ex_doc 420 eq_refl
              ltac:(intros o; reflexivity) ltac:(reflexivity) H1
              ltac:(apply surjective_pairing))
    as [Hmd Hok].
  destruct (Hok Hst) as (Hsp & _ & Hlast).
  split; [reflexivity|].
  split; [exact H1|split; [exact Hst|split; [exact Hmd|split; [exact Hsp|exact Hlast]]]].
Defined.

Lemma search_prints_stripped_output_witness :
  run_proc (ex_env " hit") ["clawhub"; "search"; "demo"] = ProcExited 0 " hit" "" /\
  run_main (SearchSkills.search_skills "demo") (ex_env " hit") ex_empty_world
  = (0%Z, mkWorld ex_empty_fs ["hit"]).
Proof.
  assert (H : run_proc (ex_env " hit") ["clawhub"; "search"; "demo"]
              = ProcExited 0 " hit" "") by reflexivity.
  split; [exact H|].
  rewrite (SearchSkillsProofs.search_prints_stripped_output "demo" " hit" "" _
             ex_empty_world H).
  reflexivity.
Defined.

End Witnesses.

(** ** The further theorems applied to concrete runs *)

Module ExtraWitnesses.
Import PyStr World ImplementAction Examples.

Lemma install_skill_success_witness :
  run_proc (ex_env "done") ["clawhub"; "install"; "demo"] = ProcExited 0 "done" "" /\
  fst (run_main (InstallSkill.install_skill "demo") (ex_env "done") ex_empty_world) = 0%Z /\
  out (snd (run_main (InstallSkill.install_skill "demo") (ex_env "done") ex_empty_world))
  = List.app (out ex_empty_world)
      (List.app ["Installing skill: " ++ "demo" ++ "...";
                 "Skill '" ++ "demo" ++ "' installed successfully."]
         (if String.eqb "done" "" then [] else ["done"])).
Proof.
  assert (H : run_proc (ex_env "done") ["clawhub"; "install"; "demo"]
              = ProcExited 0 "done" "") by reflexivity.
  split; [exact H|exact (ToolProofs.install_skill_success "demo" "done" "" _ _ H)].
Defined.

Lemma install_skill_tool_fails_witness :
  2%Z <> 0%Z /\
  run_proc (ex_fail_env 2 "boom") ["clawhub"; "install"; "demo"] = ProcExited 2 "" "boom" /\
  fst (run_main (InstallSkill.install_skill "demo") (ex_fail_env 2 "boom") ex_empty_world)
    = 1%Z /\
  exists msg,
    out (snd (run_main (InstallSkill.install_skill "demo") (ex_fail_env 2 "boom")
                ex_empty_world))
    = List.app (out ex_empty_world)
        (List.app ["Installing skill: " ++ "demo" ++ "...";
                   "Error installing skill: " ++ msg]
           (if String.eqb "boom" "" then [] else ["Details: " ++ "boom"])).
Proof.
  assert (H1 : 2%Z <> 0%Z) by lia.
  assert (H2 : run_proc (ex_fail_env 2 "boom") ["clawhub"; "install"; "demo"]
               = ProcExited 2 "" "boom") by reflexivity.
  split; [exact H1|split; [exact H2|]].
  exact (ToolProofs.install_skill_tool_fails "demo" "" "boom" 2 _ ex_empty_world H1 H2).
Defined.

Lemma install_skill_no_tool_witness :
  run_proc ex_no_tool_env ["clawhub"; "install"; "demo"] = ProcNotFound /\
  run_main (InstallSkill.install_skill "demo") ex_no_tool_env ex_empty_world
  = (1%Z, mkWorld (fs ex_empty_world)
            (List.app (out ex_empty_world)
               ["Installing skill: " ++ "demo" ++ "...";
                "Error: 'clawhub' CLI not found. Is it installed in the OpenClaw container?"])).
Proof.
  assert (H : run_proc ex_no_tool_env ["clawhub"; "install"; "demo"] = ProcNotFound)
    by reflexivity.
  split; [exact H|exact (ToolProofs.install_skill_no_tool "demo" _ ex_empty_world H)].
Defined.

Lemma search_skills_tool_fails_witness :
  1%Z <> 0%Z /\
  run_proc (ex_fail_env 1 "") ["clawhub"; "search"; "demo"] = ProcExited 1 "" "" /\
  exists msg,
    run_main (SearchSkills.search_skills "demo") (ex_fail_env 1 "") ex_empty_world
    = (1%Z, mkWorld (fs ex_empty_world)
              (List.app (out ex_empty_world)
                 (List.app ["Error searching skills: " ++ msg]
                    (if String.eqb "" "" then [] else ["Details: " ++ ""])))).
Proof.
  assert (H1 : 1%Z <> 0%Z) by lia.
  assert (H2 : run_proc (ex_fail_env 1 "") ["clawhub"; "search"; "demo"]
               = ProcExited 1 "" "") by reflexivity.
  split; [exact H1|split; [exact H2|]].
  exact (ToolProofs.search_skills_tool_fails "demo" "" "" 1 _ ex_empty_world H1 H2).
Defined.

Lemma search_skills_no_tool_witness :
  run_proc ex_no_tool_env ["clawhub"; "search"; "demo"] = ProcNotFound /\
  run_main (SearchSkills.search_skills "demo") ex_no_tool_env ex_empty_world
  = (1%Z, mkWorld (fs ex_empty_world)
            (out ex_empty_world
             ++ ["Error: 'clawhub' CLI not found. Is it installed in the OpenClaw container?"])%list).
Proof.
  assert (H : run_proc ex_no_tool_env ["clawhub"; "search"; "demo"] = ProcNotFound)
    by reflexivity.
  split; [exact H|exact (ToolProofs.search_skills_no_tool "demo" _ ex_empty_world H)].
Defined.

Lemma create_skill_success_witness :
  (forall o, fault (ex_env "") o = false) /\
  fs ex_empty_world ex_root = Some Dir /\
  (forall t, fs ex_empty_world (join ex_root "my-skill" ++ t)%list = None) /\
  run_main (CreateSkill.create_skill ex_root "my-skill" "Does things") (ex_env "")
    ex_empty_world
  = (0%Z, mkWorld
            (upd (upd (upd (fs ex_empty_world) (join ex_root "my-skill") Dir)
                      (join (join ex_root "my-skill") "scripts") Dir)
                 (join (join ex_root "my-skill") "SKILL.md")
                 (File (CreateSkill.skill_md_content "my-skill" "Does things")
                    (created_file_mode (umask (ex_env "")))))
            (List.app (out ex_empty_world)
               ["Created directory: " ++ path_str (join ex_root "my-skill");
                "Created directory: " ++ path_str (join (join ex_root "my-skill") "scripts");
                "Created SKILL.md for " ++ "my-skill"])).
Proof.
  assert (H1 : forall o, fault (ex_env "") o = false) by (intros o; reflexivity).
  assert (H2 : fs ex_empty_world ex_root = Some Dir) by reflexivity.
  assert (H3 : forall t, fs ex_empty_world (join ex_root "my-skill" ++ t)%list = None)
    by (intros t; reflexivity).
  split; [exact H1|split; [exact H2|split; [exact H3|]]].
  exact (CreateSkillExtra.create_skill_success ex_root "my-skill" "Does things" _ _
           H1 H2 H3).
Defined.

Lemma create_skill_write_failure_witness :
  let en := ex_md_write_fault_env 12 in
  let sd := join ex_root "demo" in
  let md := join sd "SKILL.md" in
  let r := run_main (CreateSkill.create_skill ex_root "demo" "Demo skill") en ex_empty_world in
  fault en (OpMkdir sd) = false /\
  fault en (OpMkdir (join sd "scripts")) = false /\
  fault en (OpOpenWrite md) = true /\
  fs ex_empty_world ex_root = Some Dir /\
  (forall t, fs ex_empty_world (sd ++ t)%list = None) /\
  fst r = 1%Z /\
  fs (snd r) sd = Some Dir /\
  fs (snd r) md = Some (File ("---" ++ nl ++ "name: de") (created_file_mode ex_umask)) /\
  fst (run_main (CreateSkill.create_skill ex_root "demo" "Demo skill") (ex_env "") (snd r))
    = 1%Z.
Proof.
  cbv zeta.
  assert (H1 : fault (ex_md_write_fault_env 12) (OpMkdir (join ex_root "demo")) = false)
    by reflexivity.
  assert (H2 : fault (ex_md_write_fault_env 12)
                 (OpMkdir (join (join ex_root "demo") "scripts")) = false) by reflexivity.
  assert (H3 : fault (ex_md_write_fault_env 12)
                 (OpOpenWrite (join (join ex_root "demo") "SKILL.md")) = true) by reflexivity.
  assert (H4 : fs ex_empty_world ex_root = Some Dir) by reflexivity.
  assert (H5 : forall t, fs ex_empty_world (join ex_root "demo" ++ t)%list = None)
    by (intros t; reflexivity).
  destruct (CreateSkillExtra.create_skill_write_failure ex_root "demo" "Demo skill"
              (ex_md_write_fault_env 12) ex_empty_world H1 H2 H3 H4 H5)
    as (Hrun & Hsd & _ & Hmd & _ & Hretry).
  refine (conj H1 (conj H2 (conj H3 (conj H4 (conj H5 (conj Hrun
            (conj Hsd (conj _ (Hretry _ _)))))))));
    rewrite Hmd; vm_compute; reflexivity.
Defined.

Lemma create_skill_changes_only_witness :
  ~ (exists t, join (join ex_root "my-skill") "scripts" = (["skills"; "other"] ++ t)%list) /\
  ["skills"; "other"] <> join (join ex_root "my-skill") "SKILL.md" /\
  fs (snd (run_main (CreateSkill.create_skill ex_root "my-skill" "Does things") (ex_env "")
             (mkWorld (upd ex_empty_fs ["skills"; "other"] Dir) [])))
     ["skills"; "other"]
  = fs (mkWorld (upd ex_empty_fs ["skills"; "other"] Dir) []) ["skills"; "other"].
Proof.
  assert (H1 : ~ (exists t, join (join ex_root "my-skill") "scripts"
                            = (["skills"; "other"] ++ t)%list)).
  { intros [t Ht]; vm_compute in Ht; discriminate. }
  assert (H2 : ["skills"; "other"] <> join (join ex_root "my-skill") "SKILL.md")
    by (vm_compute; discriminate).
  split; [exact H1|split; [exact H2|]].
  exact (CreateSkillExtra.create_skill_changes_only ex_root "my-skill" "Does things" _ _ _
           H1 H2).
Defined.

Lemma implement_action_appends_block_witness :
  (forall o, fault (ex_env "") o = false) /\
  fs (ex_skill_world ex_doc) (skill_dir ex_root "demo") = Some Dir /\
  fs (ex_skill_world ex_doc) (scripts_dir ex_root "demo") = Some Dir /\
  fs (ex_skill_world ex_doc) (script_path ex_root "demo" "do_it" "echo hi") <> Some Dir /\
  fs (ex_skill_world ex_doc) (skill_md_path ex_root "demo") = Some (File ex_doc 420) /\
  contains (action_heading "do_it") (decode_newlines ex_doc) = false /\
  exists w',
    run_main (implement_action ex_root "demo" "do_it" "Do it" "echo hi") (ex_env "")
      (ex_skill_world ex_doc) = (0%Z, w') /\
    fs w' (skill_md_path ex_root "demo")
      = Some (File (if contains "## Actions" (decode_newlines ex_doc)
                    then ex_doc ++ new_action_block "do_it" "Do it"
                                    (script_filename "do_it" "echo hi")
                    else ex_doc ++ nl ++ "## Actions" ++ nl
                           ++ new_action_block "do_it" "Do it"
                                (script_filename "do_it" "echo hi")) 420) /\
    fs w' (script_path ex_root "demo" "do_it" "echo hi") = Some (File "echo hi" exec_mode) /\
    (forall q, q <> skill_md_path ex_root "demo" ->
               q <> script_path ex_root "demo" "do_it" "echo hi" ->
               fs w' q = fs (ex_skill_world ex_doc) q) /\
    last (out w') "" = "Updated SKILL.md for " ++ "demo".
Proof.
  assert (H1 : forall o, fault (ex_env "") o = false) by (intros o; reflexivity).
  assert (H2 : fs (ex_skill_world ex_doc) (skill_dir ex_root "demo") = Some Dir)
    by reflexivity.
  assert (H3 : fs (ex_skill_world ex_doc) (scripts_dir ex_root "demo") = Some Dir)
    by reflexivity.
  assert (H4 : fs (ex_skill_world ex_doc) (script_path ex_root "demo" "do_it" "echo hi")
               <> Some Dir) by (vm_compute; discriminate).
  assert (H5 : fs (ex_skill_world ex_doc) (skill_md_path ex_root "demo")
               = Some (File ex_doc 420)) by reflexivity.
  assert (H6 : contains (action_heading "do_it") (decode_newlines ex_doc) = false)
    by (vm_compute; reflexivity).
  refine (conj H1 (conj H2 (conj H3 (conj H4 (conj H5 (conj H6 _)))))).
  exact (ImplementActionExtra.implement_action_appends_block ex_root "demo" "do_it" "Do it"
           "echo hi" _ _ ex_doc 420 H1 H2 H3 H4 H5 H6).
Defined.

Lemma implement_action_missing_skill_md_witness :
  let w := mkWorld ex_no_md_fs [] in
  fs w (skill_dir ex_root "demo") = Some Dir /\
  fs w (scripts_dir ex_root "demo") = Some Dir /\
  fault (ex_env "") (OpOpenWrite (script_path ex_root "demo" "do_it" "echo hi")) = false /\
  fault (ex_env "") (OpChmod (script_path ex_root "demo" "do_it" "echo hi")) = false /\
  fs w (script_path ex_root "demo" "do_it" "echo hi") <> Some Dir /\
  fs w (skill_md_path ex_root "demo") = None /\
  exists w' msg,
    run_main (implement_action ex_root "demo" "do_it" "Do it" "echo hi") (ex_env "") w
      = (0%Z, w') /\
    fs w' (skill_md_path ex_root "demo") = None /\
    fs w' (script_path ex_root "demo" "do_it" "echo hi") = Some (File "echo hi" exec_mode) /\
    last (out w') "" = "Error updating SKILL.md: " ++ msg.
Proof.
  cbv zeta.
  assert (H1 : fs (mkWorld ex_no_md_fs []) (skill_dir ex_root "demo") = Some Dir)
    by reflexivity.
  assert (H2 : fs (mkWorld ex_no_md_fs []) (scripts_dir ex_root "demo") = Some Dir)
    by reflexivity.
  assert (H3 : fault (ex_env "") (OpOpenWrite (script_path ex_root "demo" "do_it" "echo hi"))
               = false) by reflexivity.
  assert (H4 : fault (ex_env "") (OpChmod (script_path ex_root "demo" "do_it" "echo hi"))
               = false) by reflexivity.
  assert (H5 : fs (mkWorld ex_no_md_fs []) (script_path ex_root "demo" "do_it" "echo hi")
               <> Some Dir) by (vm_compute; discriminate).
  assert (H6 : fs (mkWorld ex_no_md_fs []) (skill_md_path ex_root "demo") = None)
    by reflexivity.
  refine (conj H1 (conj H2 (conj H3 (conj H4 (conj H5 (conj H6 _)))))).
  exact (ImplementActionExtra.implement_action_missing_skill_md ex_root "demo" "do_it" "Do it"
           "echo hi" _ _ H1 H2 H3 H4 H5 H6).
Defined.

Lemma implement_action_makes_scripts_dir_witness :
  let w := mkWorld ex_no_scripts_fs [] in
  fs w (skill_dir ex_root "demo") = Some Dir /\
  (forall t, fs w (scripts_dir ex_root "demo" ++ t)%list = None) /\
  fault (ex_env "") (OpMkdir (scripts_dir ex_root "demo")) = false /\
  fault (ex_env "") (OpOpenWrite (script_path ex_root "demo" "do_it" "echo hi")) = false /\
  fault (ex_env "") (OpChmod (script_path ex_root "demo" "do_it" "echo hi")) = false /\
  fst (run_main (implement_action ex_root "demo" "do_it" "Do it" "echo hi") (ex_env "") w)
    = 0%Z /\
  fs (snd (run_main (implement_action ex_root "demo" "do_it" "Do it" "echo hi") (ex_env "") w))
     (scripts_dir ex_root "demo") = Some Dir /\
  fs (snd (run_main (implement_action ex_root "demo" "do_it" "Do it" "echo hi") (ex_env "") w))
     (script_path ex_root "demo" "do_it" "echo hi") = Some (File "echo hi" exec_mode).
Proof.
  cbv zeta.
  assert (H1 : fs (mkWorld ex_no_scripts_fs []) (skill_dir ex_root "demo") = Some Dir)
    by reflexivity.
  assert (H2 : forall t, fs (mkWorld ex_no_scripts_fs []) (scripts_dir ex_root "demo" ++ t)%list
                         = None) by (intros t; reflexivity).
  assert (H3 : fault (ex_env "") (OpMkdir (scripts_dir ex_root "demo")) = false)
    by reflexivity.
  assert (H4 : fault (ex_env "") (OpOpenWrite (script_path ex_root "demo" "do_it" "echo hi"))
               = false) by reflexivity.
  assert (H5 : fault (ex_env "") (OpChmod (script_path ex_root "demo" "do_it" "echo hi"))
               = false) by reflexivity.
  refine (conj H1 (conj H2 (conj H3 (conj H4 (conj H5 _))))).
  exact (ImplementActionExtra.implement_action_makes_scripts_dir ex_root "demo" "do_it" "Do it"
           "echo hi" _ _ H1 H2 H3 H4 H5).
Defined.

Lemma implement_action_ok_script_witness :
  let w := mkWorld (upd (ex_skill_fs ex_doc) ["skills"; "demo"; "scripts"; "do_it.sh"]
                        (File "old" 420)) [] in
  let r := run_main (implement_action ex_root "demo" "do_it" "Do it" "echo hi") (ex_env "") w in
  fs w (script_path ex_root "demo" "do_it" "echo hi") = Some (File "old" 420) /\
  r = (0%Z, snd r) /\
  fs (snd r) (script_path ex_root "demo" "do_it" "echo hi") = Some (File "echo hi" exec_mode).
Proof.
  cbv zeta.
  assert (H : run_main (implement_action ex_root "demo" "do_it" "Do it" "echo hi") (ex_env "")
                (mkWorld (upd (ex_skill_fs ex_doc) ["skills"; "demo"; "scripts"; "do_it.sh"]
                              (File "old" 420)) [])
              = (0%Z, snd (run_main (implement_action ex_root "demo" "do_it" "Do it" "echo hi")
                             (ex_env "")
                             (mkWorld (upd (ex_skill_fs ex_doc)
                                           ["skills"; "demo"; "scripts"; "do_it.sh"]
                                           (File "old" 420)) []))))
    by (vm_compute; reflexivity).
  split; [vm_compute; reflexivity|split; [exact H|]].
  exact (ImplementActionExtra.implement_action_ok_script ex_root "demo" "do_it" "Do it"
           "echo hi" _ _ _ H).
Defined.

Lemma implement_action_changes_only_witness :
  ["skills"; "other"] <> scripts_dir ex_root "demo" /\
  ["skills"; "other"] <> script_path ex_root "demo" "do_it" "echo hi" /\
  ["skills"; "other"] <> skill_md_path ex_root "demo" /\
  fs (snd (run_main (implement_action ex_root "demo" "do_it" "Do it" "echo hi") (ex_env "")
             (mkWorld (upd (ex_skill_fs ex_doc) ["skills"; "other"] Dir) [])))
     ["skills"; "other"]
  = fs (mkWorld (upd (ex_skill_fs ex_doc) ["skills"; "other"] Dir) []) ["skills"; "other"].
Proof.
  assert (H1 : ["skills"; "other"] <> scripts_dir ex_root "demo")
    by (vm_compute; discriminate).
  assert (H2 : ["skills"; "other"] <> script_path ex_root "demo" "do_it" "echo hi")
    by (vm_compute; discriminate).
  assert (H3 : ["skills"; "other"] <> skill_md_path ex_root "demo")
    by (vm_compute; discriminate).
  split; [exact H1|split; [exact H2|split; [exact H3|]]].
  exact (ImplementActionExtra.implement_action_changes_only ex_root "demo" "do_it" "Do it"
           "echo hi" _ _ _ H1 H2 H3).
Defined.

Lemma create_then_implement_witness :
  (forall o, fault (ex_env "") o = false) /\
  fs ex_empty_world ex_root = Some Dir /\
  (forall t, fs ex_empty_world (join ex_root "my-skill" ++ t)%list = None) /\
  contains (action_heading "do_it")
    (decode_newlines (CreateSkill.skill_md_content "my-skill" "Does things")) = false /\
  let r1 := run_main (CreateSkill.create_skill ex_root "my-skill" "Does things") (ex_env "")
              ex_empty_world in
  let r2 := run_main (implement_action ex_root "my-skill" "do_it" "Do it" "echo hi")
              (ex_env "") (snd r1) in
  fst r1 = 0%Z /\ fst r2 = 0%Z /\
  fs (snd r2) (skill_md_path ex_root "my-skill")
    = Some (File (CreateSkill.skill_md_content "my-skill" "Does things"
                  ++ new_action_block "do_it" "Do it" (script_filename "do_it" "echo hi"))
              (created_file_mode (umask (ex_env "")))) /\
  fs (snd r2) (script_path ex_root "my-skill" "do_it" "echo hi")
    = Some (File "echo hi" exec_mode).
Proof.
  assert (H1 : forall o, fault (ex_env "") o = false) by (intros o; reflexivity).
  assert (H2 : fs ex_empty_world ex_root = Some Dir) by reflexivity.
  assert (H3 : forall t, fs ex_empty_world (join ex_root "my-skill" ++ t)%list = None)
    by (intros t; reflexivity).
  assert (H4 : contains (action_heading "do_it")
                 (decode_newlines (CreateSkill.skill_md_content "my-skill" "Does things"))
               = false)
    by (vm_compute; reflexivity).
  refine (conj H1 (conj H2 (conj H3 (conj H4 _)))).
  exact (ImplementActionExtra.create_then_implement ex_root "my-skill" "Does things" "do_it"
           "Do it" "echo hi" _ _ H1 H2 H3 H4).
Defined.

End ExtraWitnesses.
